(** * Movies catalogue: domain entity, repository and service

    A shallow embedding of the Go packages [domain], [ports], [database]
    and [services] of the movies service, with the properties of its
    request-validation and id-assignment core.

    Conventions.
    - An [int32] is a [Z] kept in the signed 32-bit range; every arithmetic
      operation that Go performs on [int32] values is followed by [wrap32].
    - A Go [string] is a [string] (a sequence of bytes); [len] is
      [String.length].
    - A Go [error] is a value of [error]; [None] stands for [nil].
    - The clock ([time.Now().Year()]) is the explicit argument
      [currentYear].
    - The document store is a finite map from [_id] to documents, together
      with the outcome of the driver calls still to come and the log of the
      queries issued so far. *)

From Stdlib Require Import ZArith Ascii String List Lia Bool Sorting.Sorted DecimalString.
From stdpp Require Import gmap strings list fin_maps sorting.

Open Scope string_scope.
Open Scope Z_scope.

(** ** 32-bit integers *)

Definition MinInt32 : Z := - 2 ^ 31.
Definition MaxInt32 : Z := 2 ^ 31 - 1.

(** Two's complement reduction of an integer to the [int32] range. *)
Definition wrap32 (z : Z) : Z := (z + 2 ^ 31) mod 2 ^ 32 - 2 ^ 31.

Definition is_int32 (z : Z) : Prop := MinInt32 <= z <= MaxInt32.

(** The range of Go's [int] on a 64-bit platform. *)
Definition is_int (z : Z) : bool := (- 2 ^ 63 <=? z) && (z <=? 2 ^ 63 - 1).

(** ** Errors *)

(** Go error values: the four sentinels of package [domain], a fresh
    [errors.New], a wrapping [fmt.Errorf] whose format ends in [": %w"]
    (the format is kept without that suffix, its integer arguments in
    [args]), and an error handed back by the store driver. *)
Inductive error : Type :=
| ErrMovieNotFound
| ErrInvalidMovieData
| ErrMovieAlreadyExists
| ErrInvalidYear
| errors_New (msg : string)
| fmt_Errorf (format : string) (args : list Z) (cause : error)
| driver_error.

Inductive result (A : Type) : Type :=
| Ok (a : A)
| Err (e : error).
Arguments Ok {A} a.
Arguments Err {A} e.

(** The error taxonomy of the service: what a caller is told went wrong. *)
Inductive Kind : Type := InvalidData | NotFound | AlreadyExists | StorageFailure.

Definition validation_messages : list string :=
  [ "title cannot be empty"; "year cannot be empty";
    "year must be between 1800 and current year + 10" ].

(** The kind of an error is the kind of the innermost error of its wrapping
    chain: the entity's validation errors are [InvalidData], the store's
    are [StorageFailure]. *)
Fixpoint kind (e : error) : Kind :=
  match e with
  | ErrMovieNotFound => NotFound
  | ErrInvalidMovieData => InvalidData
  | ErrMovieAlreadyExists => AlreadyExists
  | ErrInvalidYear => InvalidData
  | errors_New msg =>
      if existsb (String.eqb msg) validation_messages
      then InvalidData else StorageFailure
  | fmt_Errorf _ _ cause => kind cause
  | driver_error => StorageFailure
  end.

(** ** Strings of decimal digits *)

Definition code (ch : ascii) : Z := Z.of_N (N_of_ascii ch).

Definition is_digit (ch : ascii) : bool := (48 <=? code ch) && (code ch <=? 57).

(** Exactly four ASCII digits, the pattern [^[0-9]{4}$]. *)
Definition four_digits (s : string) : bool :=
  Nat.eqb (String.length s) 4 && forallb is_digit (list_ascii_of_string s).

(** The number a string of digits denotes, most significant digit first. *)
Definition decimal_from (n : Z) (s : string) : Z :=
  fold_left (fun acc ch => acc * 10 + (code ch - 48)) (list_ascii_of_string s) n.
Definition decimal (s : string) : Z := decimal_from 0 s.

(** ** Package strconv *)

Module strconv.

(** The digit loop of [Atoi]: [ch -= '0'; if ch > 9 { error }] on bytes,
    [n = n*10 + int(ch)]. *)
Fixpoint digits (s : string) (n : Z) : option Z :=
  match s with
  | EmptyString => Some n
  | String ch s' =>
      let d := (code ch - 48) mod 256 in
      if 9 <? d then None else digits s' (n * 10 + d)
  end.

Definition is_sign (ch : ascii) : bool :=
  Ascii.eqb ch "-"%char || Ascii.eqb ch "+"%char.

(** [Atoi s]: an optional sign followed by at least one decimal digit,
    the value fitting [int]; [None] is a syntax or range error. *)
Definition Atoi (s : string) : option Z :=
  match s with
  | EmptyString => None
  | String s0 rest =>
      let body := if is_sign s0 then rest else s in
      match body with
      | EmptyString => None
      | _ =>
          match digits body 0 with
          | None => None
          | Some n =>
              let v := if Ascii.eqb s0 "-"%char then - n else n in
              if is_int v then Some v else None
          end
      end
  end.

End strconv.

(** ** Package domain *)

Module domain.

Record Movie : Type := mkMovie {
  ID : Z;
  Title : string;
  Year : string
}.

Record MovieFilter : Type := mkFilter {
  Page : Z;
  Limit : Z
}.

(** [NewMovie] creates a new movie with validation. *)
Definition NewMovie (currentYear : Z) (id : Z) (title year : string)
  : result Movie :=
  if String.eqb title "" then Err (errors_New "title cannot be empty")
  else if String.eqb year "" then Err (errors_New "year cannot be empty")
  else if negb (Nat.eqb (String.length year) 4) then Err ErrInvalidYear
  else match strconv.Atoi year with
       | None => Err ErrInvalidYear
       | Some yearInt =>
           if (yearInt <? 1800) || (currentYear + 10 <? yearInt)
           then Err (errors_New "year must be between 1800 and current year + 10")
           else Ok (mkMovie id title year)
       end.

(** [Validate] validates movie data; [None] is [nil]. *)
Definition Validate (m : Movie) : option error :=
  if String.eqb (Title m) "" then Some (errors_New "title cannot be empty")
  else if String.eqb (Year m) "" then Some (errors_New "year cannot be empty")
  else if negb (Nat.eqb (String.length (Year m)) 4) then Some ErrInvalidYear
  else match strconv.Atoi (Year m) with
       | None => Some ErrInvalidYear
       | Some _ => None
       end.

(** [Update] mutates the receiver: the movie as it is left behind is
    returned next to the error. *)
Definition Update (m : Movie) (title year : string) : Movie * option error :=
  let m1 := if negb (String.eqb title "")
            then mkMovie (ID m) title (Year m) else m in
  if negb (String.eqb year "") then
    if negb (Nat.eqb (String.length year) 4) then (m1, Some ErrInvalidYear)
    else match strconv.Atoi year with
         | None => (m1, Some ErrInvalidYear)
         | Some _ =>
             let m2 := mkMovie (ID m1) (Title m1) year in
             (m2, Validate m2)
         end
  else (m1, Validate m1).

Definition IsEqual (m other : Movie) : bool :=
  (ID m =? ID other) && String.eqb (Title m) (Title other)
  && String.eqb (Year m) (Year other).

Definition Copy (m : Movie) : Movie := mkMovie (ID m) (Title m) (Year m).

End domain.

(** ** The document store *)

(** The collection [movies] behind the driver: documents keyed by [_id],
    whether the [$jsonSchema] validator of the initialisation script is
    installed, the outcome ([true]: the call fails) of the driver calls
    still to come, and the queries issued so far. *)
Module mongo.

Record Doc : Type := mkDoc {
  title : string;
  year : string
}.

Inductive Query : Type :=
| QFind (skip limit : Z)
| QFindOneByID (id : Z)
| QFindOneMaxID
| QInsertOne (id : Z)
| QDeleteOne (id : Z)
| QCountAll
| QCountByID (id : Z).

Record Collection : Type := mkCollection {
  docs : gmap Z Doc;
  validated : bool;
  faults : list bool;
  issued : list Query
}.

Definition decode (kd : Z * Doc) : domain.Movie :=
  domain.mkMovie kd.1 (title kd.2) (year kd.2).

Definition encode (m : domain.Movie) : Doc :=
  mkDoc (domain.Title m) (domain.Year m).

(** One round trip to the server: the query is logged and the next
    scheduled outcome is consumed; no schedule left means success. *)
Definition round_trip (q : Query) (c : Collection) : bool * Collection :=
  match faults c with
  | [] => (false, mkCollection (docs c) (validated c) [] (issued c ++ [q]))
  | b :: fs => (b, mkCollection (docs c) (validated c) fs (issued c ++ [q]))
  end.

Definition by_id_asc (a b : Z * Doc) : Prop := a.1 <= b.1.
Definition by_id_desc (a b : Z * Doc) : Prop := b.1 <= a.1.

#[global] Instance by_id_asc_dec a b : Decision (by_id_asc a b).
Proof. unfold by_id_asc. apply _. Defined.
#[global] Instance by_id_desc_dec a b : Decision (by_id_desc a b).
Proof. unfold by_id_desc. apply _. Defined.

(** [{_id: 1}] and [{_id: -1}] sorts of the whole collection. *)
Definition sorted_asc (d : gmap Z Doc) : list (Z * Doc) :=
  merge_sort by_id_asc (map_to_list d).
Definition sorted_desc (d : gmap Z Doc) : list (Z * Doc) :=
  merge_sort by_id_desc (map_to_list d).

(** A cursor limit: [0] is no limit, a negative limit caps at its
    absolute value. *)
Definition apply_limit {A} (limit : Z) (l : list A) : list A :=
  if limit =? 0 then l else take (Z.to_nat (Z.abs limit)) l.

(** [Find] with no filter, sorted by [_id] ascending; the server refuses
    a negative skip. *)
Definition Find (skip limit : Z) (c : Collection)
  : result (list domain.Movie) * Collection :=
  let '(failed, c1) := round_trip (QFind skip limit) c in
  if failed then (Err driver_error, c1)
  else if skip <? 0 then (Err driver_error, c1)
  else (Ok (decode <$> apply_limit limit (drop (Z.to_nat skip) (sorted_asc (docs c)))), c1).

(** [FindOne] by [_id]; [Ok None] is [ErrNoDocuments]. *)
Definition FindOneByID (id : Z) (c : Collection)
  : result (option domain.Movie) * Collection :=
  let '(failed, c1) := round_trip (QFindOneByID id) c in
  if failed then (Err driver_error, c1)
  else (Ok ((fun d => decode (id, d)) <$> docs c !! id), c1).

(** [FindOne] with no filter, sorted by [_id] descending. *)
Definition FindOneMaxID (c : Collection)
  : result (option domain.Movie) * Collection :=
  let '(failed, c1) := round_trip QFindOneMaxID c in
  if failed then (Err driver_error, c1)
  else (Ok (decode <$> head (sorted_desc (docs c))), c1).

(** The validator of the initialisation script: [_id] an int, [title] a
    string, [year] matching [^[0-9]{4}$]. *)
Definition schema_ok (m : domain.Movie) : bool := four_digits (domain.Year m).

Inductive InsertOutcome : Type :=
| Inserted
| DuplicateKey
| WriteFailed.

Definition InsertOne (m : domain.Movie) (c : Collection)
  : InsertOutcome * Collection :=
  let '(failed, c1) := round_trip (QInsertOne (domain.ID m)) c in
  if failed then (WriteFailed, c1)
  else if validated c && negb (schema_ok m) then (WriteFailed, c1)
  else match docs c !! domain.ID m with
       | Some _ => (DuplicateKey, c1)
       | None =>
           (Inserted,
            mkCollection (<[domain.ID m := encode m]> (docs c1))
                         (validated c1) (faults c1) (issued c1))
       end.

(** [DeleteOne] by [_id]; the result is [DeletedCount]. *)
Definition DeleteOne (id : Z) (c : Collection) : result Z * Collection :=
  let '(failed, c1) := round_trip (QDeleteOne id) c in
  if failed then (Err driver_error, c1)
  else match docs c !! id with
       | None => (Ok 0, c1)
       | Some _ =>
           (Ok 1, mkCollection (delete id (docs c1))
                               (validated c1) (faults c1) (issued c1))
       end.

(** [CountDocuments] with no filter and with an [_id] filter (int64). *)
Definition CountAll (c : Collection) : result Z * Collection :=
  let '(failed, c1) := round_trip QCountAll c in
  if failed then (Err driver_error, c1)
  else (Ok (Z.of_nat (size (docs c))), c1).

Definition CountByID (id : Z) (c : Collection) : result Z * Collection :=
  let '(failed, c1) := round_trip (QCountByID id) c in
  if failed then (Err driver_error, c1)
  else (Ok (match docs c !! id with Some _ => 1 | None => 0 end), c1).

End mongo.

(** ** Package ports *)

Module ports.

(** [MovieRepository] defines the contract for movie data access, over a
    repository state [S] threaded through every call. *)
Class MovieRepository (S : Type) : Type := {
  FindAll : domain.MovieFilter -> S -> result (list domain.Movie) * S;
  FindByID : Z -> S -> result domain.Movie * S;
  Create : domain.Movie -> S -> result domain.Movie * S;
  Delete : Z -> S -> option error * S;
  Count : S -> result Z * S;
  ExistsByID : Z -> S -> result bool * S;
  GetNextID : S -> result Z * S
}.

End ports.

(** ** Package database: the repository over the document store *)

Module database.

Import domain mongo.

Definition FindAll (filter : MovieFilter) (c : Collection)
  : result (list Movie) * Collection :=
  let skip := wrap32 (wrap32 (Page filter - 1) * Limit filter) in
  let '(r, c1) := Find skip (Limit filter) c in
  match r with
  | Err e => (Err (fmt_Errorf "failed to find movies" [] e), c1)
  | Ok movies => (Ok movies, c1)
  end.

Definition FindByID (id : Z) (c : Collection) : result Movie * Collection :=
  let '(r, c1) := FindOneByID id c in
  match r with
  | Ok None => (Err ErrMovieNotFound, c1)
  | Err e => (Err (fmt_Errorf "failed to find movie by ID" [] e), c1)
  | Ok (Some movie) => (Ok movie, c1)
  end.

Definition Create (movie : Movie) (c : Collection) : result Movie * Collection :=
  match Validate movie with
  | Some e => (Err (fmt_Errorf "invalid movie data" [] e), c)
  | None =>
      let '(o, c1) := InsertOne movie c in
      match o with
      | DuplicateKey => (Err ErrMovieAlreadyExists, c1)
      | WriteFailed => (Err (fmt_Errorf "failed to create movie" [] driver_error), c1)
      | Inserted => (Ok movie, c1)
      end
  end.

Definition Delete (id : Z) (c : Collection) : option error * Collection :=
  let '(r, c1) := DeleteOne id c in
  match r with
  | Err e => (Some (fmt_Errorf "failed to delete movie" [] e), c1)
  | Ok deletedCount =>
      if deletedCount =? 0 then (Some ErrMovieNotFound, c1) else (None, c1)
  end.

Definition Count (c : Collection) : result Z * Collection :=
  let '(r, c1) := CountAll c in
  match r with
  | Err e => (Err (fmt_Errorf "failed to count movies" [] e), c1)
  | Ok count => (Ok (wrap32 count), c1)
  end.

Definition ExistsByID (id : Z) (c : Collection) : result bool * Collection :=
  let '(r, c1) := CountByID id c in
  match r with
  | Err e => (Err (fmt_Errorf "failed to check movie existence" [] e), c1)
  | Ok count => (Ok (0 <? count), c1)
  end.

Definition GetNextID (c : Collection) : result Z * Collection :=
  let '(r, c1) := FindOneMaxID c in
  match r with
  | Ok None => (Ok 1, c1)
  | Err e => (Err (fmt_Errorf "failed to get max movie ID" [] e), c1)
  | Ok (Some movie) => (Ok (wrap32 (ID movie + 1)), c1)
  end.

#[global] Instance MongoMovieRepository : ports.MovieRepository Collection := {|
  ports.FindAll := FindAll;
  ports.FindByID := FindByID;
  ports.Create := Create;
  ports.Delete := Delete;
  ports.Count := Count;
  ports.ExistsByID := ExistsByID;
  ports.GetNextID := GetNextID
|}.

End database.

(** ** Package services: the business logic over any repository *)

Module services.

Import domain.

Section MovieService.

Context {S : Type} {repo : ports.MovieRepository S}.

(** The filter after the service's coercion of page and limit. *)
Definition normalize (filter : MovieFilter) : MovieFilter :=
  let page := if Page filter <? 1 then 1 else Page filter in
  let limit := if (Limit filter <? 1) || (100 <? Limit filter)
               then 10 else Limit filter in
  mkFilter page limit.

Definition GetMovies (filter : MovieFilter) (s : S)
  : result (list Movie * Z) * S :=
  let filter := normalize filter in
  let '(r, s1) := ports.FindAll filter s in
  match r with
  | Err e => (Err (fmt_Errorf "failed to get movies" [] e), s1)
  | Ok movies =>
      let '(rc, s2) := ports.Count s1 in
      match rc with
      | Err _ => (Ok (movies, 0), s2)
      | Ok total => (Ok (movies, total), s2)
      end
  end.

Definition GetMovie (id : Z) (s : S) : result Movie * S :=
  if id <=? 0 then (Err ErrInvalidMovieData, s)
  else
    let '(r, s1) := ports.FindByID id s in
    match r with
    | Err e => (Err (fmt_Errorf "failed to get movie with id %d" [id] e), s1)
    | Ok movie => (Ok movie, s1)
    end.

Definition CreateMovie (currentYear : Z) (title year : string) (s : S)
  : result Movie * S :=
  let '(r, s1) := ports.GetNextID s in
  match r with
  | Err e => (Err (fmt_Errorf "failed to generate movie ID" [] e), s1)
  | Ok nextID =>
      match NewMovie currentYear nextID title year with
      | Err e => (Err (fmt_Errorf "invalid movie data" [] e), s1)
      | Ok movie =>
          let '(re, s2) := ports.ExistsByID (ID movie) s1 in
          match re with
          | Err e => (Err (fmt_Errorf "failed to check movie existence" [] e), s2)
          | Ok true => (Err ErrMovieAlreadyExists, s2)
          | Ok false =>
              let '(rc, s3) := ports.Create movie s2 in
              match rc with
              | Err e => (Err (fmt_Errorf "failed to create movie" [] e), s3)
              | Ok createdMovie => (Ok createdMovie, s3)
              end
          end
      end
  end.

Definition DeleteMovie (id : Z) (s : S) : option error * S :=
  if id <=? 0 then (Some ErrInvalidMovieData, s)
  else
    let '(re, s1) := ports.ExistsByID id s in
    match re with
    | Err e => (Some (fmt_Errorf "failed to check movie existence" [] e), s1)
    | Ok false => (Some ErrMovieNotFound, s1)
    | Ok true =>
        let '(rd, s2) := ports.Delete id s1 in
        match rd with
        | Some e => (Some (fmt_Errorf "failed to delete movie with id %d" [id] e), s2)
        | None => (None, s2)
        end
    end.

End MovieService.

End services.

(** ** The constraints as the specification words them *)

(** A creation request is acceptable when the title is not empty and the
    year is four digits denoting a number of [1800 .. currentYear + 10]. *)
Definition valid_input (currentYear : Z) (title year : string) : bool :=
  negb (String.eqb title "") && four_digits year
  && (1800 <=? decimal year) && (decimal year <=? currentYear + 10).

(** The invariant of a persisted record. *)
Definition record_invariant (currentYear : Z) (m : domain.Movie) : bool :=
  valid_input currentYear (domain.Title m) (domain.Year m).

(** Positions [from, to) of a list. *)
Definition slice {A} (from to : Z) (l : list A) : list A :=
  take (Z.to_nat (to - from)) (drop (Z.to_nat from) l).

(** [n] successive calls of [DeleteMovie id], with the error of each. *)
Fixpoint DeleteMovie_times {S} {repo : ports.MovieRepository S}
    (n : nat) (id : Z) (s : S) : list (option error) * S :=
  match n with
  | O => ([], s)
  | Datatypes.S n' =>
      let '(e, s1) := services.DeleteMovie id s in
      let '(es, s2) := DeleteMovie_times n' id s1 in
      (e :: es, s2)
  end.

(** Every driver call still to come succeeds. *)
Definition healthy (c : mongo.Collection) : bool := forallb negb (mongo.faults c).

(** The highest [_id] of the collection, if it holds a document. *)
Definition max_id (d : gmap Z mongo.Doc) : option Z :=
  fst <$> head (mongo.sorted_desc d).

(** [c1] holds the documents of [c], under the same validator, and is
    still free of failures. *)
Definition preserved (c c1 : mongo.Collection) : Prop :=
  mongo.docs c1 = mongo.docs c /\ mongo.validated c1 = mongo.validated c
  /\ healthy c1 = true.

(** ** Sample stores *)

Definition c_of (l : list (Z * (string * string))) (fs : list bool) : mongo.Collection :=
  mongo.mkCollection
    (list_to_map ((fun '(k, (t, y)) => (k, mongo.mkDoc t y)) <$> l)) false fs [].

(** One movie; the same behind a store that fails a given schedule. *)
Definition one_movie : list (Z * (string * string)) := [(1, ("Test Movie", "2023"))].

(** Five movies with ids 1 to 5. *)
Definition five_movies : mongo.Collection :=
  c_of [(1, ("One", "2001")); (2, ("Two", "2002")); (3, ("Three", "2003"));
        (4, ("Four", "2004")); (5, ("Five", "2005"))] [].

(** A store whose only movie has the highest id an [int32] can hold. *)
Definition last_id_taken : mongo.Collection :=
  c_of [(2147483647, ("Last", "1999"))] [].

(** An empty collection with the validator of the initialisation script. *)
Definition empty_validated : mongo.Collection := mongo.mkCollection ∅ true [] [].

(** A movie built without the constructor, its year before 1800. *)
Definition old_movie : domain.Movie := domain.mkMovie 1 "Old Movie" "1700".

(** ** Further vocabulary for the entity and the service *)

(** A sign followed by three digits: the other shape of a four-byte year
    that [Atoi] reads. *)
Definition signed_three_digits (s : string) : bool :=
  match s with
  | String s0 rest =>
      strconv.is_sign s0 && Nat.eqb (String.length rest) 3
      && forallb is_digit (list_ascii_of_string rest)
  | EmptyString => false
  end.

(** The field an update leaves: the new value unless it is empty. *)
Definition updated_field (old new : string) : string :=
  if String.eqb new "" then old else new.

(** The service's [CreateMovie] for each request of a list, in order. *)
Fixpoint CreateMovie_each {S} {repo : ports.MovieRepository S}
    (currentYear : Z) (reqs : list (string * string)) (s : S)
  : list (result domain.Movie) * S :=
  match reqs with
  | [] => ([], s)
  | (title, year) :: reqs' =>
      let '(r, s1) := services.CreateMovie currentYear title year s in
      let '(rs, s2) := CreateMovie_each currentYear reqs' s1 in
      (r :: rs, s2)
  end.

(** The ids of a list of movies. *)
Definition ids (movies : list domain.Movie) : list Z := domain.ID <$> movies.

(** ** The text of an error *)

Module errors.

(** [fmt.Sprintf] of a format whose only verb is [%d]; the formats of the
    sources have as many verbs as arguments. *)
Fixpoint Sprintf (format : string) (args : list Z) : string :=
  match format with
  | String "%" (String "d" rest) =>
      match args with
      | a :: args' =>
          String.append (NilZero.string_of_int (Z.to_int a)) (Sprintf rest args')
      | [] => String.append "%!d(MISSING)" (Sprintf rest [])
      end
  | String ch rest => String ch (Sprintf rest args)
  | EmptyString => EmptyString
  end.

(** [err.Error()]; the driver's own text is [driver_message]. *)
Fixpoint Error (driver_message : string) (e : error) : string :=
  match e with
  | ErrMovieNotFound => "movie not found"
  | ErrInvalidMovieData => "invalid movie data"
  | ErrMovieAlreadyExists => "movie already exists"
  | ErrInvalidYear => "invalid year format"
  | errors_New msg => msg
  | fmt_Errorf format args cause =>
      String.append (Sprintf format args)
                    (String.append ": " (Error driver_message cause))
  | driver_error => driver_message
  end.

End errors.

(** ** Package pb *)

(** Modelled from the spec: the generated protobuf messages, whose
    declarations are not among the sources; the fields are those the server
    fills and the client reads ([movies], [total], [success], [error]). A
    message that is not set is [None]. *)
Module pb.

Record Movie : Type := mkMovie {
  Id : Z;
  Title : string;
  Year : string
}.

Record GetMoviesRequest : Type := mkGetMoviesRequest {
  Page : Z;
  Limit : Z
}.

Record GetMoviesResponse : Type := mkGetMoviesResponse {
  Movies : list Movie;
  Total : Z;
  ListSuccess : bool;
  ListError : string
}.

(** The responses of [GetMovie] and [CreateMovie] have the same fields. *)
Record MovieResponse : Type := mkMovieResponse {
  TheMovie : option Movie;
  Success : bool;
  Error : string
}.

Record DeleteMovieResponse : Type := mkDeleteMovieResponse {
  DeleteSuccess : bool;
  DeleteError : string
}.

End pb.

(** ** Package grpc of the movies service: the server *)

Module grpc_server.

Definition to_pb (movie : domain.Movie) : pb.Movie :=
  pb.mkMovie (domain.ID movie) (domain.Title movie) (domain.Year movie).

Section MovieServer.

Context {S : Type} {repo : ports.MovieRepository S}.
Variable driver_message : string.

(** Every method returns a response and a [nil] error; only the response
    is kept. *)
Definition GetMovies (req : pb.GetMoviesRequest) (s : S)
  : pb.GetMoviesResponse * S :=
  let filter := domain.mkFilter (pb.Page req) (pb.Limit req) in
  let '(r, s1) := services.GetMovies filter s in
  match r with
  | Err e =>
      (pb.mkGetMoviesResponse [] 0 false (errors.Error driver_message e), s1)
  | Ok (movies, total) =>
      (pb.mkGetMoviesResponse (to_pb <$> movies) total true "", s1)
  end.

Definition GetMovie (id : Z) (s : S) : pb.MovieResponse * S :=
  if id <=? 0 then (pb.mkMovieResponse None false "invalid movie ID", s)
  else
    let '(r, s1) := services.GetMovie id s in
    match r with
    | Err ErrMovieNotFound => (pb.mkMovieResponse None false "movie not found", s1)
    | Err e => (pb.mkMovieResponse None false (errors.Error driver_message e), s1)
    | Ok movie => (pb.mkMovieResponse (Some (to_pb movie)) true "", s1)
    end.

Definition CreateMovie (currentYear : Z) (title year : string) (s : S)
  : pb.MovieResponse * S :=
  if String.eqb title "" || String.eqb year ""
  then (pb.mkMovieResponse None false "title and year are required", s)
  else
    let '(r, s1) := services.CreateMovie currentYear title year s in
    match r with
    | Err e => (pb.mkMovieResponse None false (errors.Error driver_message e), s1)
    | Ok movie => (pb.mkMovieResponse (Some (to_pb movie)) true "", s1)
    end.

Definition DeleteMovie (id : Z) (s : S) : pb.DeleteMovieResponse * S :=
  if id <=? 0 then (pb.mkDeleteMovieResponse false "invalid movie ID", s)
  else
    let '(r, s1) := services.DeleteMovie id s in
    match r with
    | Some ErrMovieNotFound => (pb.mkDeleteMovieResponse false "movie not found", s1)
    | Some e => (pb.mkDeleteMovieResponse false (errors.Error driver_message e), s1)
    | None => (pb.mkDeleteMovieResponse true "", s1)
    end.

End MovieServer.

End grpc_server.

(** ** The gateway: its service, and its client of the movies service *)

Module gateway.

(** Modelled from the spec: the gateway's own [Movie], whose declaration is
    not among the sources; its fields are those the client fills. *)
Record Movie : Type := mkMovie {
  ID : Z;
  Title : string;
  Year : string
}.

(** The errors the gateway makes: the two refusals of its service, a
    wrapping [fmt.Errorf] ending in [": %w"], the client's report of a
    response that is not a success, and an error of the call itself. *)
Inductive error : Type :=
| invalid_movie_ID (id : Z)
| title_and_year_required
| wrapping (context : string) (cause : error)
| movie_service_error (text : string)
| call_failed.

(** How a call ends: with a value, with an error, or in a panic (the read
    of a field of a message that is not set). *)
Inductive outcome (A : Type) : Type :=
| Done (a : A)
| Failed (e : error)
| Panicked.
Arguments Done {A} a.
Arguments Failed {A} e.
Arguments Panicked {A}.

(** [MovieServicePort] defines the contract for external movie service
    communication, over the state [T] of what is behind it. *)
Class MovieServicePort (T : Type) : Type := {
  PortGetMovies : Z -> Z -> T -> outcome (list Movie * Z) * T;
  PortGetMovie : Z -> T -> outcome Movie * T;
  PortCreateMovie : string -> string -> T -> outcome Movie * T;
  PortDeleteMovie : Z -> T -> option error * T
}.

Section MovieService.

Context {T : Type} {moviePort : MovieServicePort T}.

Definition GetMovies (page limit : Z) (t : T) : outcome (list Movie * Z) * T :=
  let page := if page <? 1 then 1 else page in
  let limit := if (limit <? 1) || (100 <? limit) then 10 else limit in
  let '(r, t1) := PortGetMovies page limit t in
  match r with
  | Failed e => (Failed (wrapping "failed to get movies" e), t1)
  | Done (movies, total) => (Done (movies, total), t1)
  | Panicked => (Panicked, t1)
  end.

Definition GetMovie (id : Z) (t : T) : outcome Movie * T :=
  if id <=? 0 then (Failed (invalid_movie_ID id), t)
  else
    let '(r, t1) := PortGetMovie id t in
    match r with
    | Failed e => (Failed (wrapping "failed to get movie" e), t1)
    | Done movie => (Done movie, t1)
    | Panicked => (Panicked, t1)
    end.

Definition CreateMovie (title year : string) (t : T) : outcome Movie * T :=
  if String.eqb title "" || String.eqb year ""
  then (Failed title_and_year_required, t)
  else
    let '(r, t1) := PortCreateMovie title year t in
    match r with
    | Failed e => (Failed (wrapping "failed to create movie" e), t1)
    | Done movie => (Done movie, t1)
    | Panicked => (Panicked, t1)
    end.

Definition DeleteMovie (id : Z) (t : T) : option error * T :=
  if id <=? 0 then (Some (invalid_movie_ID id), t)
  else
    let '(r, t1) := PortDeleteMovie id t in
    match r with
    | Some e => (Some (wrapping "failed to delete movie" e), t1)
    | None => (None, t1)
    end.

End MovieService.

End gateway.

(** ** Package grpc of the gateway: the client *)

Module grpc_client.

(** The stub of the generated client: a call either fails ([None]) or
    brings back a response. *)
Class MovieServiceClient (T : Type) : Type := {
  CallGetMovies : pb.GetMoviesRequest -> T -> option pb.GetMoviesResponse * T;
  CallGetMovie : Z -> T -> option pb.MovieResponse * T;
  CallCreateMovie : string -> string -> T -> option pb.MovieResponse * T;
  CallDeleteMovie : Z -> T -> option pb.DeleteMovieResponse * T
}.

Definition of_pb (pbMovie : pb.Movie) : gateway.Movie :=
  gateway.mkMovie (pb.Id pbMovie) (pb.Title pbMovie) (pb.Year pbMovie).

(** [resp.Movie.Id] and the like: reading the fields of the movie of a
    response panics when the movie is not set. *)
Definition read_movie (m : option pb.Movie) : gateway.outcome gateway.Movie :=
  match m with
  | Some pbMovie => gateway.Done (of_pb pbMovie)
  | None => gateway.Panicked
  end.

Section MovieGRPCClient.

Context {T : Type} {client : MovieServiceClient T}.

Definition GetMovies (page limit : Z) (t : T)
  : gateway.outcome (list gateway.Movie * Z) * T :=
  let '(r, t1) := CallGetMovies (pb.mkGetMoviesRequest page limit) t in
  match r with
  | None => (gateway.Failed (gateway.wrapping "failed to get movies" gateway.call_failed), t1)
  | Some resp =>
      if negb (pb.ListSuccess resp)
      then (gateway.Failed (gateway.movie_service_error (pb.ListError resp)), t1)
      else (gateway.Done (of_pb <$> pb.Movies resp, pb.Total resp), t1)
  end.

Definition GetMovie (id : Z) (t : T) : gateway.outcome gateway.Movie * T :=
  let '(r, t1) := CallGetMovie id t in
  match r with
  | None => (gateway.Failed (gateway.wrapping "failed to get movie" gateway.call_failed), t1)
  | Some resp =>
      if negb (pb.Success resp)
      then (gateway.Failed (gateway.movie_service_error (pb.Error resp)), t1)
      else (read_movie (pb.TheMovie resp), t1)
  end.

Definition CreateMovie (title year : string) (t : T)
  : gateway.outcome gateway.Movie * T :=
  let '(r, t1) := CallCreateMovie title year t in
  match r with
  | None => (gateway.Failed (gateway.wrapping "failed to create movie" gateway.call_failed), t1)
  | Some resp =>
      if negb (pb.Success resp)
      then (gateway.Failed (gateway.movie_service_error (pb.Error resp)), t1)
      else (read_movie (pb.TheMovie resp), t1)
  end.

Definition DeleteMovie (id : Z) (t : T) : option gateway.error * T :=
  let '(r, t1) := CallDeleteMovie id t in
  match r with
  | None => (Some (gateway.wrapping "failed to delete movie" gateway.call_failed), t1)
  | Some resp =>
      if negb (pb.DeleteSuccess resp)
      then (Some (gateway.movie_service_error (pb.DeleteError resp)), t1)
      else (None, t1)
  end.

#[global] Instance MovieGRPCClient : gateway.MovieServicePort T := {|
  gateway.PortGetMovies := GetMovies;
  gateway.PortGetMovie := GetMovie;
  gateway.PortCreateMovie := CreateMovie;
  gateway.PortDeleteMovie := DeleteMovie
|}.

End MovieGRPCClient.

End grpc_client.

(** A stub whose calls reach the server of the movies service over a given
    repository and bring its response back as it is. *)
Definition connected {S : Type} {repo : ports.MovieRepository S}
    (currentYear : Z) (driver_message : string)
  : grpc_client.MovieServiceClient S := {|
  grpc_client.CallGetMovies req s :=
    let '(resp, s1) := grpc_server.GetMovies driver_message req s in (Some resp, s1);
  grpc_client.CallGetMovie id s :=
    let '(resp, s1) := grpc_server.GetMovie driver_message id s in (Some resp, s1);
  grpc_client.CallCreateMovie title year s :=
    let '(resp, s1) := grpc_server.CreateMovie driver_message currentYear title year s in
    (Some resp, s1);
  grpc_client.CallDeleteMovie id s :=
    let '(resp, s1) := grpc_server.DeleteMovie driver_message id s in (Some resp, s1)
|}.

(** ** Package config of the movies service *)

Module config.

Record ServerConfig : Type := mkServerConfig {
  Port : string;
  ReadTimeout : Z;
  WriteTimeout : Z
}.

Record DatabaseConfig : Type := mkDatabaseConfig {
  ConnectionString : string;
  DatabaseName : string;
  MaxPoolSize : Z
}.

Record GRPCConfig : Type := mkGRPCConfig {
  GRPCPort : string
}.

Record Config : Type := mkConfig {
  Server : ServerConfig;
  Database : DatabaseConfig;
  GRPC : GRPCConfig
}.

(** The environment: the variables that are set, with their values. *)
Definition getEnv (key defaultVal : string) (env : gmap string string) : string :=
  match env !! key with
  | Some value => value
  | None => defaultVal
  end.

Definition getEnvAsInt (name : string) (defaultVal : Z) (env : gmap string string) : Z :=
  match strconv.Atoi (getEnv name "" env) with
  | Some value => value
  | None => defaultVal
  end.

Definition Load (env : gmap string string) : Config :=
  mkConfig
    (mkServerConfig (getEnv "SERVER_PORT" "8080" env)
                    (getEnvAsInt "READ_TIMEOUT" 10 env)
                    (getEnvAsInt "WRITE_TIMEOUT" 10 env))
    (mkDatabaseConfig (getEnv "MONGODB_URI" "mongodb://mongodb:27017" env)
                      (getEnv "DATABASE_NAME" "movies_db" env)
                      (getEnvAsInt "MAX_POOL_SIZE" 10 env))
    (mkGRPCConfig (getEnv "GRPC_PORT" "50051" env)).

(** [Validate] either ends the process with a fatal message ([Some]) or
    returns [nil] ([None]). *)
Definition Validate (c : Config) : option string :=
  if String.eqb (ConnectionString (Database c)) ""
  then Some "Database connection string is required"
  else if String.eqb (DatabaseName (Database c)) ""
  then Some "Database name is required"
  else if String.eqb (GRPCPort (GRPC c)) ""
  then Some "GRPC port is required"
  else None.

End config.

(** ** Package config of the gateway *)

Module gateway_config.

Record ServerConfig : Type := mkServerConfig {
  Port : string;
  ReadTimeout : Z;
  WriteTimeout : Z
}.

Record MovieServiceConfig : Type := mkMovieServiceConfig {
  GRPCAddress : string
}.

Record Config : Type := mkConfig {
  Server : ServerConfig;
  MovieService : MovieServiceConfig
}.

Definition getEnv (key defaultVal : string) (env : gmap string string) : string :=
  match env !! key with
  | Some value => value
  | None => defaultVal
  end.

Definition getEnvAsInt (name : string) (defaultVal : Z) (env : gmap string string) : Z :=
  match strconv.Atoi (getEnv name "" env) with
  | Some value => value
  | None => defaultVal
  end.

Definition Load (env : gmap string string) : Config :=
  mkConfig
    (mkServerConfig (getEnv "SERVER_PORT" "8080" env)
                    (getEnvAsInt "READ_TIMEOUT" 10 env)
                    (getEnvAsInt "WRITE_TIMEOUT" 10 env))
    (mkMovieServiceConfig
       (getEnv "MOVIE_SERVICE_GRPC_ADDRESS" "movies-service:50051" env)).

(** [Validate] either ends the process with a fatal message ([Some]) or
    returns [nil] ([None]). *)
Definition Validate (c : Config) : option string :=
  if String.eqb (GRPCAddress (MovieService c)) ""
  then Some "Movie service GRPC address is required"
  else None.

End gateway_config.

(** The gateway's movie with the fields of a movie of the service. *)
Definition as_gateway (m : domain.Movie) : gateway.Movie :=
  gateway.mkMovie (domain.ID m) (domain.Title m) (domain.Year m).

(** The decimal text of an integer, as [%d] prints it. *)
Definition itoa (z : Z) : string := NilZero.string_of_int (Z.to_int z).

(** Every stored [_id] fits an [int32], as the field it is decoded into
    requires. *)
Definition int32_ids (c : mongo.Collection) : bool :=
  forallb (fun kd : Z * mongo.Doc => (MinInt32 <=? kd.1) && (kd.1 <=? MaxInt32))
          (map_to_list (mongo.docs c)).

Example atoi_2023 : strconv.Atoi "2023" = Some 2023.
Proof. reflexivity. Qed.
Example atoi_signed : strconv.Atoi "+123" = Some 123 /\ strconv.Atoi "-123" = Some (-123).
Proof. split; reflexivity. Qed.
Example atoi_abc : strconv.Atoi "abc" = None /\ strconv.Atoi "20 3" = None.
Proof. split; reflexivity. Qed.

Example sorted_sample :
  mongo.sorted_asc (mongo.docs (c_of [(3, ("c", "2003")); (1, ("a", "2001")); (2, ("b", "2002"))] []))
  = [(1, mongo.mkDoc "a" "2001"); (2, mongo.mkDoc "b" "2002"); (3, mongo.mkDoc "c" "2003")].
Proof. vm_compute. reflexivity. Qed.

Example create_sample :
  fst (services.CreateMovie 2026 "Test Movie" "2023" (c_of [] []))
  = Ok (domain.mkMovie 1 "Test Movie" "2023").
Proof. vm_compute. reflexivity. Qed.

(** ** 32-bit arithmetic *)

Lemma wrap32_small z : is_int32 z -> wrap32 z = z.
Proof.
  unfold is_int32, MinInt32, MaxInt32, wrap32. intros H.
  rewrite Z.mod_small; lia.
Qed.

Lemma wrap32_range z : is_int32 (wrap32 z).
Proof.
  unfold is_int32, MinInt32, MaxInt32, wrap32.
  pose proof (Z.mod_pos_bound (z + 2 ^ 31) (2 ^ 32)). lia.
Qed.

(** ** Digits and [Atoi] *)

Lemma code_range ch : 0 <= code ch < 256.
Proof. unfold code. pose proof (N_ascii_bounded ch). lia. Qed.

Lemma digit_test ch : (9 <? (code ch - 48) mod 256) = negb (is_digit ch).
Proof.
  pose proof (code_range ch) as Hc. unfold is_digit.
  destruct (Z.ltb_spec 9 ((code ch - 48) mod 256)),
           (Z.leb_spec 48 (code ch)), (Z.leb_spec (code ch) 57);
    simpl; try reflexivity; exfalso; Z.div_mod_to_equations; lia.
Qed.

Lemma digit_value ch : is_digit ch = true -> (code ch - 48) mod 256 = code ch - 48.
Proof.
  unfold is_digit. intros H. apply andb_true_iff in H as [H1 H2].
  apply Z.leb_le in H1, H2. apply Z.mod_small. lia.
Qed.

Lemma digits_sound s : forall n v,
  strconv.digits s n = Some v ->
  forallb is_digit (list_ascii_of_string s) = true /\ v = decimal_from n s.
Proof.
  induction s as [|ch s IH]; intros n v H; simpl in H.
  - injection H as <-. split; reflexivity.
  - rewrite digit_test in H. destruct (is_digit ch) eqn:Hd; simpl in H; [|discriminate].
    apply IH in H as [Hall ->]. split.
    + simpl. rewrite Hd. exact Hall.
    + unfold decimal_from. simpl. rewrite (digit_value ch Hd). reflexivity.
Qed.

Lemma digits_complete s : forall n,
  forallb is_digit (list_ascii_of_string s) = true ->
  strconv.digits s n = Some (decimal_from n s).
Proof.
  induction s as [|ch s IH]; intros n H; simpl in *.
  - reflexivity.
  - apply andb_true_iff in H as [Hd Hall].
    rewrite digit_test, Hd. simpl. rewrite (IH _ Hall).
    unfold decimal_from. simpl. rewrite (digit_value ch Hd). reflexivity.
Qed.

Lemma decimal_from_bounds s : forall n,
  forallb is_digit (list_ascii_of_string s) = true -> 0 <= n ->
  n * 10 ^ Z.of_nat (String.length s) <= decimal_from n s
  < (n + 1) * 10 ^ Z.of_nat (String.length s).
Proof.
  induction s as [|ch s IH]; intros n H Hn.
  - unfold decimal_from. simpl. lia.
  - simpl in H. apply andb_true_iff in H as [Hd Hall].
    unfold is_digit in Hd. apply andb_true_iff in Hd as [H1 H2].
    apply Z.leb_le in H1, H2.
    change (decimal_from n (String ch s)) with (decimal_from (n * 10 + (code ch - 48)) s).
    specialize (IH (n * 10 + (code ch - 48)) Hall ltac:(lia)).
    change (String.length (String ch s)) with (Datatypes.S (String.length s)).
    rewrite Nat2Z.inj_succ, Z.pow_succ_r by lia.
    pose proof (Z.pow_pos_nonneg 10 (Z.of_nat (String.length s)) ltac:(lia) ltac:(lia)).
    nia.
Qed.

Lemma digit_not_sign ch : is_digit ch = true -> strconv.is_sign ch = false.
Proof.
  intros Hd. unfold strconv.is_sign.
  destruct (Ascii.eqb_spec ch "-"%char) as [->|_]; [discriminate Hd|].
  destruct (Ascii.eqb_spec ch "+"%char) as [->|_]; [discriminate Hd|].
  reflexivity.
Qed.

Lemma not_sign_not_minus ch : strconv.is_sign ch = false -> Ascii.eqb ch "-"%char = false.
Proof. unfold strconv.is_sign. intros H. apply orb_false_iff in H. tauto. Qed.

(** On four digits [Atoi] succeeds with the number they denote. *)
Lemma Atoi_four_digits y :
  four_digits y = true -> strconv.Atoi y = Some (decimal y) /\ 0 <= decimal y <= 9999.
Proof.
  unfold four_digits. intros H. apply andb_true_iff in H as [Hlen Hall].
  apply Nat.eqb_eq in Hlen.
  pose proof (decimal_from_bounds y 0 Hall ltac:(lia)) as Hb.
  rewrite Hlen in Hb. fold (decimal y) in Hb.
  split; [|lia].
  destruct y as [|s0 rest]; [discriminate Hlen|].
  assert (Hs0 : is_digit s0 = true).
  { simpl in Hall. apply andb_true_iff in Hall. tauto. }
  unfold strconv.Atoi.
  rewrite (digit_not_sign _ Hs0), (digits_complete _ 0 Hall).
  rewrite (not_sign_not_minus _ (digit_not_sign _ Hs0)).
  fold (decimal (String s0 rest)).
  unfold is_int.
  destruct (Z.leb_spec (- 2 ^ 63) (decimal (String s0 rest))),
           (Z.leb_spec (decimal (String s0 rest)) (2 ^ 63 - 1));
    simpl; try reflexivity; lia.
Qed.

(** A year of four bytes that [Atoi] reads as 1800 or more has no sign:
    it is four digits. *)
Lemma Atoi_len4_from_1800 y v :
  String.length y = 4%nat -> strconv.Atoi y = Some v -> 1800 <= v ->
  four_digits y = true /\ v = decimal y.
Proof.
  intros Hlen HA Hv.
  destruct y as [|s0 rest]; [discriminate Hlen|].
  unfold strconv.Atoi in HA.
  destruct (strconv.is_sign s0) eqn:Hsign.
  - exfalso.
    destruct rest as [|r0 rest']; [discriminate HA|].
    destruct (strconv.digits (String r0 rest') 0) as [n|] eqn:Hd; [|discriminate HA].
    apply digits_sound in Hd as [Hall ->].
    pose proof (decimal_from_bounds _ 0 Hall ltac:(lia)) as Hb.
    simpl in Hlen. injection Hlen as Hlen.
    change (String.length (String r0 rest')) with (Datatypes.S (String.length rest')) in Hb.
    rewrite Hlen in Hb. change (Z.of_nat 3) with 3 in Hb.
    destruct (Ascii.eqb s0 "-"%char), (is_int _); try discriminate HA;
      injection HA as <-; lia.
  - destruct (strconv.digits (String s0 rest) 0) as [n|] eqn:Hd; [|discriminate HA].
    apply digits_sound in Hd as [Hall ->].
    rewrite (not_sign_not_minus _ Hsign) in HA.
    destruct (is_int _); [|discriminate HA]. injection HA as <-.
    split; [|reflexivity].
    unfold four_digits. rewrite Hlen, Hall. reflexivity.
Qed.

(** ** The constructor and the validator *)

(** The constructor accepts exactly the acceptable requests. *)
Lemma NewMovie_ok_iff cy id t y m :
  domain.NewMovie cy id t y = Ok m <->
  valid_input cy t y = true /\ m = domain.mkMovie id t y.
Proof.
  unfold domain.NewMovie, valid_input. split.
  - destruct (String.eqb t "") eqn:Ht; [discriminate|].
    destruct (String.eqb y "") eqn:Hy; [discriminate|].
    destruct (Nat.eqb (String.length y) 4) eqn:Hlen; simpl; [|discriminate].
    destruct (strconv.Atoi y) as [v|] eqn:HA; [|discriminate].
    destruct (Z.ltb_spec v 1800); simpl; [discriminate|].
    destruct (Z.ltb_spec (cy + 10) v); [discriminate|].
    intros [= <-]. apply Nat.eqb_eq in Hlen.
    destruct (Atoi_len4_from_1800 y v Hlen HA ltac:(lia)) as [H4 ->].
    rewrite H4. simpl.
    split; [|reflexivity]. apply andb_true_iff. split; apply Z.leb_le; lia.
  - intros [H ->].
    apply andb_true_iff in H as [H Hhi]. apply andb_true_iff in H as [H Hlo].
    apply andb_true_iff in H as [Ht H4]. apply negb_true_iff in Ht.
    apply Z.leb_le in Hhi, Hlo.
    destruct (Atoi_four_digits y H4) as [HA _].
    rewrite Ht, HA.
    unfold four_digits in H4. apply andb_true_iff in H4 as [Hlen _].
    rewrite Hlen. apply Nat.eqb_eq in Hlen.
    destruct (String.eqb_spec y "") as [->|_]; [discriminate Hlen|]. simpl.
    destruct (Z.ltb_spec (decimal y) 1800); [lia|].
    destruct (Z.ltb_spec (cy + 10) (decimal y)); [lia|]. reflexivity.
Qed.

(** An unacceptable request is refused with a validation error. *)
Lemma NewMovie_invalid cy id t y :
  valid_input cy t y = false ->
  exists e, domain.NewMovie cy id t y = Err e /\ kind e = InvalidData.
Proof.
  intros Hbad.
  destruct (domain.NewMovie cy id t y) as [m|e] eqn:HN.
  - apply NewMovie_ok_iff in HN as [Hok _]. congruence.
  - exists e. split; [reflexivity|].
    unfold domain.NewMovie in HN.
    repeat match type of HN with
           | (if ?b then _ else _) = _ => destruct b
           | match ?o with Some _ => _ | None => _ end = _ => destruct o
           end; inversion HN; reflexivity.
Qed.

(** Whatever the constructor returns passes the validator. *)
Lemma NewMovie_Validate cy id t y m :
  domain.NewMovie cy id t y = Ok m -> domain.Validate m = None.
Proof.
  unfold domain.NewMovie, domain.Validate.
  destruct (String.eqb t "") eqn:Ht; [discriminate|].
  destruct (String.eqb y "") eqn:Hy; [discriminate|].
  destruct (Nat.eqb (String.length y) 4) eqn:Hlen; simpl; [|discriminate].
  destruct (strconv.Atoi y) as [v|] eqn:HA; [|discriminate].
  destruct ((v <? 1800) || (cy + 10 <? v)); [discriminate|].
  intros [= <-]. simpl. rewrite Ht, Hy, Hlen, HA. reflexivity.
Qed.

(** What the validator checks: a title, four bytes of year, and a year
    that [Atoi] reads. *)
Lemma Validate_ok_iff m :
  domain.Validate m = None <->
  domain.Title m <> "" /\ String.length (domain.Year m) = 4%nat
  /\ exists v, strconv.Atoi (domain.Year m) = Some v.
Proof.
  unfold domain.Validate. split.
  - destruct (String.eqb_spec (domain.Title m) ""); [discriminate|].
    destruct (String.eqb (domain.Year m) ""); [discriminate|].
    destruct (Nat.eqb_spec (String.length (domain.Year m)) 4); simpl; [|discriminate].
    destruct (strconv.Atoi (domain.Year m)) as [v|]; [|discriminate].
    intros _. eauto.
  - intros (Ht & Hlen & v & HA).
    destruct (String.eqb_spec (domain.Title m) ""); [contradiction|].
    destruct (String.eqb_spec (domain.Year m) "") as [E|_].
    { rewrite E in Hlen. discriminate Hlen. }
    rewrite Hlen, HA. reflexivity.
Qed.

(** ** The store: sorting and the highest id *)

Section Store.

Import mongo.

#[local] Instance by_id_asc_total : Total by_id_asc.
Proof. intros a b. unfold by_id_asc. lia. Qed.
#[local] Instance by_id_asc_trans : Transitive by_id_asc.
Proof. intros a b c. unfold by_id_asc. lia. Qed.
#[local] Instance by_id_desc_total : Total by_id_desc.
Proof. intros a b. unfold by_id_desc. lia. Qed.
#[local] Instance by_id_desc_trans : Transitive by_id_desc.
Proof. intros a b c. unfold by_id_desc. lia. Qed.

Lemma sorted_asc_sorted (d : gmap Z Doc) : StronglySorted by_id_asc (sorted_asc d).
Proof. apply StronglySorted_merge_sort; apply _. Qed.

Lemma sorted_asc_perm (d : gmap Z Doc) : sorted_asc d ≡ₚ map_to_list d.
Proof. apply merge_sort_Permutation. Qed.

Lemma sorted_asc_length (d : gmap Z Doc) : length (sorted_asc d) = size d.
Proof. rewrite sorted_asc_perm. apply length_map_to_list. Qed.

Lemma elem_of_sorted_asc (d : gmap Z Doc) k v :
  (k, v) ∈ sorted_asc d ↔ d !! k = Some v.
Proof. rewrite sorted_asc_perm. apply elem_of_map_to_list. Qed.

(** No id occurs twice, so the ascending order is strict. *)
Lemma sorted_asc_strict (d : gmap Z Doc) i j a b :
  sorted_asc d !! i = Some a -> sorted_asc d !! j = Some b ->
  (i < j)%nat -> a.1 < b.1.
Proof.
  intros Hi Hj Hlt.
  assert (Hle : a.1 <= b.1).
  { pose proof (sorted_asc_sorted d) as Hs.
    rewrite <- (take_drop j (sorted_asc d)) in Hs.
    apply (StronglySorted_app_1_elem_of by_id_asc _ _ a b) in Hs; [exact Hs| |].
    - apply list_elem_of_lookup. exists i. rewrite lookup_take_lt by exact Hlt. exact Hi.
    - apply list_elem_of_lookup. exists 0%nat. rewrite lookup_drop, Nat.add_0_r. exact Hj. }
  assert (Hnd : NoDup ((sorted_asc d).*1)).
  { rewrite sorted_asc_perm. apply NoDup_fst_map_to_list. }
  assert (a.1 <> b.1); [|lia].
  intros Heq.
  assert (i = j); [|lia].
  apply (NoDup_lookup _ i j (a.1) Hnd); rewrite list_lookup_fmap.
  - rewrite Hi. reflexivity.
  - rewrite Hj, Heq. reflexivity.
Qed.

Lemma max_id_None (d : gmap Z Doc) : max_id d = None ↔ d = ∅.
Proof.
  unfold max_id, sorted_desc. rewrite fmap_None, head_None.
  rewrite <- map_to_list_empty_iff. split; intros H.
  - apply Permutation_nil_r. rewrite <- H. symmetry. apply merge_sort_Permutation.
  - apply Permutation_nil_r. rewrite <- H. apply merge_sort_Permutation.
Qed.

(** The head of the descending sort is a stored id above all others. *)
Lemma max_id_Some (d : gmap Z Doc) m :
  max_id d = Some m ->
  is_Some (d !! m) /\ forall k, is_Some (d !! k) -> k <= m.
Proof.
  unfold max_id. intros H. apply fmap_Some in H as ([k v] & Hh & ->). simpl.
  apply head_Some in Hh as [l' Hl].
  assert (Hall : forall kv, kv ∈ sorted_desc d -> d !! kv.1 = Some kv.2).
  { intros [k' v'] Hin. unfold sorted_desc in Hin.
    rewrite merge_sort_Permutation in Hin. apply elem_of_map_to_list. exact Hin. }
  split.
  - exists v. apply (Hall (k, v)). rewrite Hl. left.
  - intros k' [v' Hk'].
    assert (Hin : (k', v') ∈ sorted_desc d).
    { unfold sorted_desc. rewrite merge_sort_Permutation.
      apply elem_of_map_to_list. exact Hk'. }
    pose proof (StronglySorted_merge_sort by_id_desc (map_to_list d)) as Hs.
    fold (sorted_desc d) in Hs. rewrite Hl in Hs, Hin.
    apply StronglySorted_inv in Hs as [_ Hfa].
    apply elem_of_cons in Hin as [[= -> ->]|Hin]; [lia|].
    rewrite Forall_forall in Hfa. apply (Hfa (k', v')). exact Hin.
Qed.

(** *** Driver calls on a store free of failures *)

Lemma round_trip_hd q c :
  hd false (faults c) = false ->
  round_trip q c
  = (false, mkCollection (docs c) (validated c) (tl (faults c)) (issued c ++ [q])).
Proof.
  unfold round_trip. destruct (faults c) as [|b fs]; simpl; intros H.
  - reflexivity.
  - rewrite H. reflexivity.
Qed.

Lemma healthy_hd c : healthy c = true -> hd false (faults c) = false.
Proof.
  unfold healthy. destruct (faults c) as [|b fs]; simpl; [reflexivity|].
  intros H. apply andb_true_iff in H as [H _]. apply negb_true_iff in H. exact H.
Qed.

Lemma healthy_tl c q :
  healthy c = true ->
  healthy (mkCollection (docs c) (validated c) (tl (faults c)) q) = true.
Proof.
  unfold healthy. simpl. destruct (faults c) as [|b fs]; simpl; [reflexivity|].
  intros H. apply andb_true_iff in H as [_ H]. exact H.
Qed.

Lemma round_trip_healthy q c :
  healthy c = true ->
  exists c1, round_trip q c = (false, c1) /\ preserved c c1
             /\ issued c1 = (issued c ++ [q])%list.
Proof.
  intros H. eexists. split; [apply round_trip_hd, healthy_hd, H|].
  split; [|reflexivity].
  split; [reflexivity|]. split; [reflexivity|]. apply healthy_tl, H.
Qed.

End Store.

(** ** The repository on a store free of failures *)

Section Repository.

Import domain mongo.

Lemma GetNextID_hd c :
  hd false (faults c) = false ->
  database.GetNextID c
  = (Ok match max_id (docs c) with None => 1 | Some m => wrap32 (m + 1) end,
     mkCollection (docs c) (validated c) (tl (faults c))
                  (issued c ++ [QFindOneMaxID])).
Proof.
  intros H. unfold database.GetNextID, FindOneMaxID, max_id.
  rewrite (round_trip_hd _ _ H).
  destruct (head (sorted_desc (docs c))) as [[k v]|]; reflexivity.
Qed.

Lemma GetNextID_healthy c :
  healthy c = true ->
  exists c1,
    database.GetNextID c
    = (Ok match max_id (docs c) with None => 1 | Some m => wrap32 (m + 1) end, c1)
    /\ preserved c c1.
Proof.
  intros H. eexists. split; [apply GetNextID_hd, healthy_hd, H|].
  repeat split. apply healthy_tl, H.
Qed.

Lemma ExistsByID_healthy c id :
  healthy c = true ->
  exists c1,
    database.ExistsByID id c
    = (Ok match docs c !! id with Some _ => true | None => false end, c1)
    /\ preserved c c1.
Proof.
  intros H. unfold database.ExistsByID, CountByID.
  rewrite (round_trip_hd _ _ (healthy_hd _ H)).
  eexists. split.
  - destruct (docs c !! id); reflexivity.
  - repeat split. apply healthy_tl, H.
Qed.

Lemma Create_healthy c m :
  healthy c = true -> Validate m = None ->
  (validated c = true -> schema_ok m = true) ->
  docs c !! ID m = None ->
  exists c1,
    database.Create m c = (Ok m, c1)
    /\ docs c1 = <[ID m := encode m]> (docs c)
    /\ validated c1 = validated c /\ healthy c1 = true.
Proof.
  intros H HV Hschema Hfresh. unfold database.Create, InsertOne.
  rewrite HV, (round_trip_hd _ _ (healthy_hd _ H)), Hfresh.
  assert (validated c && negb (schema_ok m) = false) as ->.
  { destruct (validated c); [|reflexivity]. rewrite Hschema; reflexivity. }
  eexists. split; [reflexivity|].
  repeat split. apply healthy_tl, H.
Qed.

Lemma Delete_absent c id :
  healthy c = true -> docs c !! id = None ->
  exists c1, database.Delete id c = (Some ErrMovieNotFound, c1) /\ preserved c c1.
Proof.
  intros H Habs. unfold database.Delete, DeleteOne.
  rewrite (round_trip_hd _ _ (healthy_hd _ H)), Habs. simpl.
  eexists. split; [reflexivity|]. repeat split. apply healthy_tl, H.
Qed.

Lemma Count_healthy c :
  healthy c = true ->
  exists c1,
    database.Count c = (Ok (wrap32 (Z.of_nat (size (docs c)))), c1)
    /\ preserved c c1.
Proof.
  intros H. unfold database.Count, CountAll.
  rewrite (round_trip_hd _ _ (healthy_hd _ H)).
  eexists. split; [reflexivity|]. repeat split. apply healthy_tl, H.
Qed.

Lemma FindByID_healthy c id :
  healthy c = true ->
  exists c1,
    database.FindByID id c
    = (match docs c !! id with
       | Some d => Ok (decode (id, d))
       | None => Err ErrMovieNotFound
       end, c1)
    /\ preserved c c1.
Proof.
  intros H. unfold database.FindByID, FindOneByID.
  rewrite (round_trip_hd _ _ (healthy_hd _ H)).
  eexists. split.
  - destruct (docs c !! id); reflexivity.
  - repeat split. apply healthy_tl, H.
Qed.

(** What a query observes depends on the documents only. *)
Lemma observations_preserved c c1 :
  healthy c = true -> preserved c c1 ->
  (database.Count c1).1 = (database.Count c).1
  /\ forall id, (database.FindByID id c1).1 = (database.FindByID id c).1.
Proof.
  intros H (Hd & _ & H1). split.
  - destruct (Count_healthy c H) as (? & -> & _).
    destruct (Count_healthy c1 H1) as (? & -> & _). simpl. rewrite Hd. reflexivity.
  - intros id.
    destruct (FindByID_healthy c id H) as (? & -> & _).
    destruct (FindByID_healthy c1 id H1) as (? & -> & _). simpl. rewrite Hd. reflexivity.
Qed.

End Repository.

(** ** Deleting what is not there *)

Lemma DeleteMovie_absent (c : mongo.Collection) id :
  0 < id -> healthy c = true -> mongo.docs c !! id = None ->
  exists c1, services.DeleteMovie id c = (Some ErrMovieNotFound, c1) /\ preserved c c1.
Proof.
  intros Hid H Habs. unfold services.DeleteMovie.
  destruct (Z.leb_spec id 0); [lia|]. simpl.
  destruct (ExistsByID_healthy c id H) as (c1 & -> & Hp). rewrite Habs.
  exists c1. split; [reflexivity|exact Hp].
Qed.

(** C7: on a store that answers every call, deleting an id above zero that
    no document has returns [ErrMovieNotFound] -- from the service, however
    often the call is repeated, and from the repository's own delete -- an
    error of kind [NotFound] and no other; the documents are left as they
    were. *)
Theorem DeleteMovie_absent_NotFound (c : mongo.Collection) (id : Z) (n : nat) :
  0 < id -> healthy c = true -> mongo.docs c !! id = None ->
  (exists c1,
     DeleteMovie_times n id c = (replicate n (Some ErrMovieNotFound), c1)
     /\ mongo.docs c1 = mongo.docs c)
  /\ (exists c1,
        database.Delete id c = (Some ErrMovieNotFound, c1)
        /\ mongo.docs c1 = mongo.docs c)
  /\ kind ErrMovieNotFound = NotFound.
Proof.
  intros Hid H Habs. split; [|split; [|reflexivity]].
  - revert c H Habs. induction n as [|n IH]; intros c H Habs.
    + exists c. split; reflexivity.
    + destruct (DeleteMovie_absent c id Hid H Habs) as (c1 & Hdel & Hd1 & Hv1 & H1).
      destruct (IH c1 H1) as (c2 & Hrest & Hd2); [rewrite Hd1; exact Habs|].
      exists c2. simpl. rewrite Hdel, Hrest. split; [reflexivity|congruence].
  - destruct (Delete_absent c id H Habs) as (c1 & -> & Hd & _).
    exists c1. split; [reflexivity|exact Hd].
Qed.

Lemma DeleteMovie_absent_NotFound_witness :
  (exists c1,
     DeleteMovie_times 3 999 (c_of one_movie [false; false])
     = (replicate 3 (Some ErrMovieNotFound), c1)
     /\ mongo.docs c1 = mongo.docs (c_of one_movie [false; false]))
  /\ (exists c1,
        database.Delete 999 (c_of one_movie [false; false])
        = (Some ErrMovieNotFound, c1)
        /\ mongo.docs c1 = mongo.docs (c_of one_movie [false; false]))
  /\ kind ErrMovieNotFound = NotFound.
Proof.
  apply (DeleteMovie_absent_NotFound
           (c_of one_movie [false; false]) 999 3).
  - lia.
  - reflexivity.
  - vm_compute. reflexivity.
Defined.

(** ** Requests refused before any repository call *)

(** C8: for an id of zero or less, [GetMovie] and [DeleteMovie] return
    [ErrInvalidMovieData], of kind [InvalidData], and hand back the
    repository state they were given: whatever the repository is, none of
    its operations has run. *)
Theorem nonpositive_id_fails_fast
    (S : Type) (repo : ports.MovieRepository S) (id : Z) (s : S) :
  id <= 0 ->
  services.GetMovie id s = (Err ErrInvalidMovieData, s)
  /\ services.DeleteMovie id s = (Some ErrInvalidMovieData, s)
  /\ kind ErrInvalidMovieData = InvalidData.
Proof.
  intros Hid. unfold services.GetMovie, services.DeleteMovie.
  destruct (Z.leb_spec id 0); [|lia]. repeat split.
Qed.

Lemma nonpositive_id_fails_fast_witness :
  services.GetMovie 0 (c_of one_movie [true; true; true])
  = (Err ErrInvalidMovieData, c_of one_movie [true; true; true])
  /\ services.DeleteMovie 0 (c_of one_movie [true; true; true])
     = (Some ErrInvalidMovieData, c_of one_movie [true; true; true])
  /\ kind ErrInvalidMovieData = InvalidData.
Proof.
  apply (nonpositive_id_fails_fast _ database.MongoMovieRepository 0
           (c_of one_movie [true; true; true])).
  lia.
Defined.

(** ** Listing when the count fails *)

(** C9: when the repository lists the page of the coerced filter and the
    count that follows fails, [GetMovies] returns that page with a total of
    zero and no error; when the count succeeds it returns the page with the
    counted total. *)
Theorem GetMovies_count_failure
    (S : Type) (repo : ports.MovieRepository S)
    (filter : domain.MovieFilter) (s s1 : S) (movies : list domain.Movie) :
  ports.FindAll (services.normalize filter) s = (Ok movies, s1) ->
  (forall e s2, ports.Count s1 = (Err e, s2) ->
     services.GetMovies filter s = (Ok (movies, 0), s2))
  /\ (forall total s2, ports.Count s1 = (Ok total, s2) ->
        services.GetMovies filter s = (Ok (movies, total), s2)).
Proof.
  intros Hlist. unfold services.GetMovies. rewrite Hlist.
  split; intros ? s2 Hcount; rewrite Hcount; reflexivity.
Qed.

(** ** The entity's update *)

(** C10: with a title and a year that are not empty, a year that is not
    four bytes long or that [Atoi] refuses makes [Update] return
    [ErrInvalidYear] and leave the movie with the new title and the old
    year; and a year of four bytes that [Atoi] reads is taken whatever its
    value, no range being checked. *)
Theorem Update_partial_on_invalid_year (m : domain.Movie) (t y : string) :
  t <> "" -> y <> "" ->
  String.length y <> 4%nat \/ strconv.Atoi y = None ->
  domain.Update m t y
  = (domain.mkMovie (domain.ID m) t (domain.Year m), Some ErrInvalidYear)
  /\ kind ErrInvalidYear = InvalidData
  /\ (forall y' v, String.length y' = 4%nat -> strconv.Atoi y' = Some v ->
        domain.Update m t y' = (domain.mkMovie (domain.ID m) t y', None)).
Proof.
  intros Ht Hy Hbad. unfold domain.Update.
  destruct (String.eqb_spec t ""); [contradiction|]. simpl.
  split; [|split; [reflexivity|]].
  - destruct (String.eqb_spec y ""); [contradiction|]. simpl.
    destruct (Nat.eqb_spec (String.length y) 4) as [Hlen|Hlen]; simpl; [|reflexivity].
    destruct Hbad as [Hbad| ->]; [contradiction|reflexivity].
  - intros y' v Hlen HA.
    destruct (String.eqb_spec y' "") as [->|_]; [discriminate Hlen|]. simpl.
    rewrite Hlen, HA. simpl.
    unfold domain.Validate. simpl.
    destruct (String.eqb_spec t ""); [contradiction|].
    destruct (String.eqb_spec y' "") as [->|_]; [discriminate Hlen|].
    rewrite Hlen, HA. reflexivity.
Qed.

Lemma Update_partial_on_invalid_year_witness :
  domain.Update (domain.mkMovie 1 "Test Movie" "2023") "Renamed" "20x3"
  = (domain.mkMovie 1 "Renamed" "2023", Some ErrInvalidYear)
  /\ kind ErrInvalidYear = InvalidData
  /\ (forall y' v, String.length y' = 4%nat -> strconv.Atoi y' = Some v ->
        domain.Update (domain.mkMovie 1 "Test Movie" "2023") "Renamed" y'
        = (domain.mkMovie 1 "Renamed" y', None)).
Proof.
  apply (Update_partial_on_invalid_year (domain.mkMovie 1 "Test Movie" "2023")
           "Renamed" "20x3").
  - discriminate.
  - discriminate.
  - right. reflexivity.
Defined.

Lemma GetMovies_count_failure_witness :
  services.GetMovies (domain.mkFilter 0 0) (c_of one_movie [false; true])
  = (Ok ([domain.mkMovie 1 "Test Movie" "2023"], 0),
     mongo.mkCollection (mongo.docs (c_of one_movie [])) false []
                        [mongo.QFind 0 10; mongo.QCountAll]).
Proof.
  refine (proj1 (GetMovies_count_failure _ database.MongoMovieRepository
                   (domain.mkFilter 0 0) (c_of one_movie [false; true])
                   (mongo.mkCollection (mongo.docs (c_of one_movie [])) false [true]
                                       [mongo.QFind 0 10])
                   [domain.mkMovie 1 "Test Movie" "2023"] _)
                (fmt_Errorf "failed to count movies" [] driver_error) _ _).
  - vm_compute. reflexivity.
  - vm_compute. reflexivity.
Defined.

(** ** The validator against the constructor *)

(** C2: the validator accepts a movie whose year is 1700, which the
    constructor refuses in every year: the validator has no range check. *)
Theorem Validate_accepts_what_NewMovie_refuses (currentYear : Z) :
  domain.Validate old_movie = None
  /\ domain.NewMovie currentYear (domain.ID old_movie) (domain.Title old_movie)
                     (domain.Year old_movie)
     = Err (errors_New "year must be between 1800 and current year + 10").
Proof. split; reflexivity. Qed.

(** With the range check added, the validator agrees with the constructor. *)
Lemma NewMovie_iff_Validate_and_range cy m :
  domain.NewMovie cy (domain.ID m) (domain.Title m) (domain.Year m) = Ok m <->
  domain.Validate m = None
  /\ exists v, strconv.Atoi (domain.Year m) = Some v /\ 1800 <= v <= cy + 10.
Proof.
  split.
  - intros H. split; [eapply NewMovie_Validate; exact H|].
    apply NewMovie_ok_iff in H as [H _]. unfold valid_input in H.
    apply andb_true_iff in H as [H Hhi]. apply andb_true_iff in H as [H Hlo].
    apply andb_true_iff in H as [_ H4]. apply Z.leb_le in Hhi, Hlo.
    destruct (Atoi_four_digits _ H4) as [HA _]. eauto.
  - intros [HV (v & HA & Hv)]. apply Validate_ok_iff in HV as (Ht & Hlen & _).
    destruct (Atoi_len4_from_1800 _ _ Hlen HA ltac:(lia)) as [H4 ->].
    apply NewMovie_ok_iff. split; [|destruct m; reflexivity].
    unfold valid_input. rewrite H4.
    destruct (String.eqb_spec (domain.Title m) ""); [contradiction|]. simpl.
    apply andb_true_iff. split; apply Z.leb_le; lia.
Qed.

(** C1: the repository's create accepts a movie whose year is 1700 and
    stores it, also under the validator of the initialisation script; the
    stored record breaks the range part of the invariant in every year. *)
Theorem Create_stores_year_out_of_range (currentYear : Z) :
  database.Create old_movie empty_validated
  = (Ok old_movie,
     mongo.mkCollection {[ 1 := mongo.mkDoc "Old Movie" "1700" ]} true []
                        [mongo.QInsertOne 1])
  /\ record_invariant currentYear old_movie = false.
Proof. split; reflexivity. Qed.

(** Without that validator a signed year goes in as well. *)
Example Create_stores_signed_year :
  (database.Create (domain.mkMovie 1 "Signed" "+123") (c_of [] [])).1
  = Ok (domain.mkMovie 1 "Signed" "+123").
Proof. reflexivity. Qed.

(** What create does guarantee of a record it accepts. *)
Lemma Create_accepts_only_validated m c c1 m' :
  database.Create m c = (Ok m', c1) ->
  m' = m /\ domain.Title m <> "" /\ String.length (domain.Year m) = 4%nat
  /\ (exists v, strconv.Atoi (domain.Year m) = Some v)
  /\ (mongo.validated c = true -> four_digits (domain.Year m) = true).
Proof.
  unfold database.Create, mongo.InsertOne. intros H.
  destruct (domain.Validate m) eqn:HV; [discriminate H|].
  apply Validate_ok_iff in HV as (Ht & Hlen & HA).
  destruct (mongo.round_trip _ c) as [[|] c0]; [discriminate H|].
  destruct (mongo.validated c) eqn:Hval; simpl in H.
  - destruct (mongo.schema_ok m) eqn:Hs; simpl in H; [|discriminate H].
    destruct (mongo.docs c !! domain.ID m); inversion H; subst. auto.
  - destruct (mongo.docs c !! domain.ID m); inversion H; subst.
    repeat split; auto. discriminate.
Qed.

(** ** The next id *)

(** The repository's next id on a store that answers: 1 on an empty
    collection, else one more than the highest id, reduced to 32 bits; one
    query is issued and the documents are left alone. *)
Lemma GetNextID_spec (c : mongo.Collection) :
  hd false (mongo.faults c) = false ->
  exists c1,
    database.GetNextID c
    = (Ok match max_id (mongo.docs c) with None => 1 | Some m => wrap32 (m + 1) end, c1)
    /\ mongo.docs c1 = mongo.docs c
    /\ mongo.issued c1 = (mongo.issued c ++ [mongo.QFindOneMaxID])%list.
Proof.
  intros H. eexists. split; [apply GetNextID_hd, H|]. split; reflexivity.
Qed.

(** Below the last [int32] the next id is the highest id plus one. *)
Lemma GetNextID_no_overflow (c : mongo.Collection) m :
  hd false (mongo.faults c) = false ->
  max_id (mongo.docs c) = Some m -> MinInt32 <= m < MaxInt32 ->
  (database.GetNextID c).1 = Ok (m + 1).
Proof.
  intros H Hm Hr. rewrite (GetNextID_hd c H), Hm. simpl.
  rewrite wrap32_small; [reflexivity|]. unfold is_int32. lia.
Qed.

Lemma GetNextID_empty (c : mongo.Collection) :
  hd false (mongo.faults c) = false -> mongo.docs c = ∅ ->
  (database.GetNextID c).1 = Ok 1.
Proof.
  intros H He. rewrite (GetNextID_hd c H).
  apply max_id_None in He. rewrite He. reflexivity.
Qed.

(** C6: when the highest stored id is 2147483647, the next id is
    -2147483648, which is not that id plus one. *)
Theorem GetNextID_wraps_at_MaxInt32 :
  max_id (mongo.docs last_id_taken) = Some 2147483647
  /\ (database.GetNextID last_id_taken).1 = Ok (-2147483648)
  /\ -2147483648 <> 2147483647 + 1.
Proof. split; [|split]; [vm_compute; reflexivity ..|lia]. Qed.

(** ** Creating a movie *)

(** An acceptable request is created under the next id, which is above
    zero whenever the collection is empty or its highest id lies in
    [0 .. MaxInt32 - 1]. *)
Lemma CreateMovie_valid_input (currentYear : Z) (title year : string)
    (c : mongo.Collection) :
  valid_input currentYear title year = true ->
  healthy c = true ->
  match max_id (mongo.docs c) with None => True | Some m => 0 <= m < MaxInt32 end ->
  exists id c1,
    services.CreateMovie currentYear title year c
    = (Ok (domain.mkMovie id title year), c1)
    /\ 0 < id
    /\ mongo.docs c !! id = None
    /\ mongo.docs c1 = <[id := mongo.mkDoc title year]> (mongo.docs c).
Proof.
  intros Hvalid H Hmax.
  set (id := match max_id (mongo.docs c) with None => 1 | Some m => wrap32 (m + 1) end).
  assert (Hid : 0 < id /\ mongo.docs c !! id = None).
  { subst id. destruct (max_id (mongo.docs c)) as [m|] eqn:Hm.
    - rewrite wrap32_small by (unfold is_int32, MinInt32, MaxInt32 in *; lia).
      split; [lia|].
      destruct (mongo.docs c !! (m + 1)) eqn:Hl; [|reflexivity].
      apply max_id_Some in Hm as [_ Hub].
      specialize (Hub (m + 1) ltac:(eauto)). lia.
    - split; [lia|]. apply max_id_None in Hm. rewrite Hm. apply lookup_empty. }
  destruct Hid as [Hpos Hfresh].
  exists id. unfold services.CreateMovie.
  destruct (GetNextID_healthy c H) as (c1 & Hnext & Hd1 & Hv1 & H1).
  change (ports.GetNextID c) with (database.GetNextID c). rewrite Hnext. fold id.
  assert (HN : domain.NewMovie currentYear id title year
               = Ok (domain.mkMovie id title year)).
  { apply NewMovie_ok_iff. split; [exact Hvalid|reflexivity]. }
  rewrite HN. simpl.
  destruct (ExistsByID_healthy c1 id H1) as (c2 & Hex & Hd2 & Hv2 & H2).
  change (ports.ExistsByID id c1) with (database.ExistsByID id c1).
  rewrite Hex, Hd1, Hfresh.
  destruct (Create_healthy c2 (domain.mkMovie id title year) H2) as (c3 & Hcr & Hd3 & _).
  - eapply NewMovie_Validate. exact HN.
  - intros _. unfold mongo.schema_ok. simpl. unfold valid_input in Hvalid.
    apply andb_true_iff in Hvalid as [Hvalid _].
    apply andb_true_iff in Hvalid as [Hvalid _].
    apply andb_true_iff in Hvalid as [_ H4]. exact H4.
  - simpl. rewrite Hd2, Hd1. exact Hfresh.
  - exists c3.
    change (ports.Create (domain.mkMovie id title year) c2)
      with (database.Create (domain.mkMovie id title year) c2).
    rewrite Hcr. repeat split; auto.
    rewrite Hd3, Hd2, Hd1. reflexivity.
Qed.

(** C3: on a store whose highest id is 2147483647, an acceptable request
    is created under the id -2147483648, which is not above zero. *)
Theorem CreateMovie_id_not_positive :
  valid_input 2026 "Test Movie" "2023" = true
  /\ healthy last_id_taken = true
  /\ (services.CreateMovie 2026 "Test Movie" "2023" last_id_taken).1
     = Ok (domain.mkMovie (-2147483648) "Test Movie" "2023")
  /\ ~ 0 < -2147483648.
Proof. repeat split; [vm_compute; reflexivity ..|lia]. Qed.

(** A store seeded with an id below zero gives the same. *)
Example CreateMovie_after_negative_seed :
  (services.CreateMovie 2026 "Test Movie" "2023" (c_of [(-5, ("Seed", "1999"))] [])).1
  = Ok (domain.mkMovie (-4) "Test Movie" "2023").
Proof. vm_compute. reflexivity. Qed.

(** C4 as it is worded fails: an unacceptable request whose id query fails
    is answered with the storage failure, not with a validation error. *)
Lemma CreateMovie_invalid_store_down :
  valid_input 2026 "" "2023" = false
  /\ ~ exists e,
       (services.CreateMovie 2026 "" "2023" (c_of one_movie [true])).1 = Err e
       /\ kind e = InvalidData.
Proof.
  split; [reflexivity|]. intros (e & He & Hk).
  vm_compute in He. injection He as <-. discriminate Hk.
Qed.

(** The repository's next id when the driver call fails. *)
Lemma GetNextID_fails (c : mongo.Collection) :
  hd false (mongo.faults c) = true ->
  database.GetNextID c
  = (Err (fmt_Errorf "failed to get max movie ID" [] driver_error),
     mongo.mkCollection (mongo.docs c) (mongo.validated c) (tl (mongo.faults c))
                        (mongo.issued c ++ [mongo.QFindOneMaxID])).
Proof.
  intros H. unfold database.GetNextID, mongo.FindOneMaxID, mongo.round_trip.
  destruct (mongo.faults c) as [|b fs]; simpl in H; [discriminate H|].
  rewrite H. reflexivity.
Qed.

(** C4: on a collection whose ids are [int32]s, take an unacceptable
    request. When the query for the next id succeeds, the request fails
    with the constructor's validation error for that id, wrapped as invalid
    movie data, of kind [InvalidData]; that query is the only one issued,
    the documents are those from before, and on a store that answers every
    call the count and every lookup by id return what they returned before.
    When the query for the next id fails, the request fails with that
    storage failure, wrapped twice, of kind [StorageFailure]; again only
    that query is issued and no document changes, and nothing has been
    validated: any other title and year give the very same result. *)
Theorem CreateMovie_invalid_input (currentYear : Z) (title year : string)
    (c : mongo.Collection) :
  valid_input currentYear title year = false ->
  int32_ids c = true ->
  (hd false (mongo.faults c) = false ->
   exists e c1,
     services.CreateMovie currentYear title year c
     = (Err (fmt_Errorf "invalid movie data" [] e), c1)
     /\ (exists nextID,
           (database.GetNextID c).1 = Ok nextID
           /\ domain.NewMovie currentYear nextID title year = Err e)
     /\ kind (fmt_Errorf "invalid movie data" [] e) = InvalidData
     /\ mongo.docs c1 = mongo.docs c
     /\ mongo.issued c1 = (mongo.issued c ++ [mongo.QFindOneMaxID])%list
     /\ (healthy c = true ->
         (database.Count c1).1 = (database.Count c).1
         /\ forall id, (database.FindByID id c1).1 = (database.FindByID id c).1))
  /\ (hd false (mongo.faults c) = true ->
      services.CreateMovie currentYear title year c
      = (Err (fmt_Errorf "failed to generate movie ID" []
                (fmt_Errorf "failed to get max movie ID" [] driver_error)),
         mongo.mkCollection (mongo.docs c) (mongo.validated c) (tl (mongo.faults c))
                            (mongo.issued c ++ [mongo.QFindOneMaxID]))
      /\ kind (fmt_Errorf "failed to generate movie ID" []
                 (fmt_Errorf "failed to get max movie ID" [] driver_error))
         = StorageFailure
      /\ (forall title' year',
            services.CreateMovie currentYear title' year' c
            = services.CreateMovie currentYear title year c)).
Proof.
  intros Hbad _. split.
  - intros Hhd. unfold services.CreateMovie.
    change (ports.GetNextID c) with (database.GetNextID c).
    rewrite (GetNextID_hd c Hhd).
    destruct (NewMovie_invalid currentYear
                match max_id (mongo.docs c) with None => 1 | Some m => wrap32 (m + 1) end
                title year Hbad) as (e & HN & Hk).
    rewrite HN.
    exists e. eexists. split; [reflexivity|].
    split; [eexists; split; [reflexivity|exact HN]|].
    split; [exact Hk|]. split; [reflexivity|]. split; [reflexivity|].
    intros H. apply observations_preserved; [exact H|].
    repeat split. apply healthy_tl, H.
  - intros Hhd.
    assert (Hany : forall t y,
              services.CreateMovie currentYear t y c
              = (Err (fmt_Errorf "failed to generate movie ID" []
                        (fmt_Errorf "failed to get max movie ID" [] driver_error)),
                 mongo.mkCollection (mongo.docs c) (mongo.validated c)
                                    (tl (mongo.faults c))
                                    (mongo.issued c ++ [mongo.QFindOneMaxID]))).
    { intros t y. unfold services.CreateMovie.
      change (ports.GetNextID c) with (database.GetNextID c).
      rewrite (GetNextID_fails c Hhd). reflexivity. }
    split; [apply Hany|]. split; [reflexivity|].
    intros t y. rewrite !Hany. reflexivity.
Qed.

Lemma CreateMovie_invalid_input_witness :
  (exists e c1,
     services.CreateMovie 2026 "Test Movie" "1700" (c_of one_movie [false])
     = (Err (fmt_Errorf "invalid movie data" [] e), c1)
     /\ (exists nextID,
           (database.GetNextID (c_of one_movie [false])).1 = Ok nextID
           /\ domain.NewMovie 2026 nextID "Test Movie" "1700" = Err e)
     /\ kind (fmt_Errorf "invalid movie data" [] e) = InvalidData
     /\ mongo.docs c1 = mongo.docs (c_of one_movie [false])
     /\ mongo.issued c1
        = (mongo.issued (c_of one_movie [false]) ++ [mongo.QFindOneMaxID])%list
     /\ (healthy (c_of one_movie [false]) = true ->
         (database.Count c1).1 = (database.Count (c_of one_movie [false])).1
         /\ forall id, (database.FindByID id c1).1
                       = (database.FindByID id (c_of one_movie [false])).1))
  /\ services.CreateMovie 2026 "" "2023" (c_of one_movie [true])
     = (Err (fmt_Errorf "failed to generate movie ID" []
               (fmt_Errorf "failed to get max movie ID" [] driver_error)),
        mongo.mkCollection (mongo.docs (c_of one_movie [true])) false []
                           [mongo.QFindOneMaxID]).
Proof.
  split.
  - apply (CreateMovie_invalid_input 2026 "Test Movie" "1700"
             (c_of one_movie [false])).
    + reflexivity.
    + vm_compute. reflexivity.
    + reflexivity.
  - apply (CreateMovie_invalid_input 2026 "" "2023" (c_of one_movie [true])).
    + reflexivity.
    + vm_compute. reflexivity.
    + reflexivity.
Defined.

(** ** Listing a page *)

Lemma take_drop_slice {A} (l : list A) (skip limit : Z) :
  0 <= skip -> 0 < limit ->
  take (Z.to_nat limit) (drop (Z.to_nat skip) l)
  = slice skip (Z.min (skip + limit) (Z.of_nat (length l))) l.
Proof.
  intros Hs Hl. unfold slice.
  destruct (Z.le_gt_cases (Z.of_nat (length l)) skip) as [Hout|Hin].
  - rewrite drop_ge by lia. rewrite !take_nil. reflexivity.
  - destruct (Z.le_gt_cases (skip + limit) (Z.of_nat (length l))) as [Hfull|Hpart].
    + rewrite Z.min_l by lia. f_equal. lia.
    + rewrite Z.min_r by lia.
      rewrite !take_ge; [reflexivity| |]; rewrite length_drop; lia.
Qed.

(** Where the skip does not overflow, the service returns positions
    [(p-1)*l, min (p*l) N) of the documents in ascending order of id, and
    nothing for a page that starts at or after [N]. *)
Lemma GetMovies_page_no_overflow (c : mongo.Collection) (p l : Z) :
  healthy c = true -> 1 <= p -> 1 <= l <= 100 -> (p - 1) * l <= MaxInt32 ->
  let N := Z.of_nat (size (mongo.docs c)) in
  let all := mongo.decode <$> mongo.sorted_asc (mongo.docs c) in
  exists c1,
    services.GetMovies (domain.mkFilter p l) c
    = (Ok (slice ((p - 1) * l) (Z.min (p * l) N) all, wrap32 N), c1)
    /\ mongo.docs c1 = mongo.docs c
    /\ (N <= (p - 1) * l -> slice ((p - 1) * l) (Z.min (p * l) N) all = []).
Proof.
  intros H Hp Hl Hskip N all. unfold MaxInt32 in Hskip.
  assert (Hp1 : wrap32 (p - 1) = p - 1).
  { apply wrap32_small. unfold is_int32, MinInt32, MaxInt32. nia. }
  assert (Hsk : wrap32 ((p - 1) * l) = (p - 1) * l).
  { apply wrap32_small. unfold is_int32, MinInt32, MaxInt32. nia. }
  unfold services.GetMovies, services.normalize. simpl.
  destruct (Z.ltb_spec p 1); [lia|].
  destruct (Z.ltb_spec l 1); [lia|].
  destruct (Z.ltb_spec 100 l); [lia|]. simpl.
  unfold database.FindAll, mongo.Find. simpl.
  rewrite Hp1, Hsk.
  rewrite (round_trip_hd _ _ (healthy_hd _ H)).
  destruct (Z.ltb_spec ((p - 1) * l) 0); [nia|].
  unfold mongo.apply_limit.
  destruct (Z.eqb_spec l 0); [lia|].
  rewrite Z.abs_eq by lia.
  destruct (Count_healthy _ (healthy_tl c (mongo.issued c ++ [mongo.QFind ((p - 1) * l) l]) H))
    as (c2 & Hcount & Hd2 & _).
  rewrite Hcount. simpl.
  exists c2. split; [|split].
  - f_equal. f_equal. f_equal.
    rewrite fmap_take, fmap_drop. fold all.
    rewrite take_drop_slice by nia.
    f_equal. f_equal; [lia|].
    subst all N. rewrite length_fmap, sorted_asc_length. reflexivity.
  - exact Hd2.
  - intros Hout. unfold slice. rewrite drop_ge; [apply take_nil|].
    subst all N. rewrite length_fmap, sorted_asc_length. lia.
Qed.

(** C5: with five movies stored, page 42949674 of limit 100 starts far
    beyond the last record, yet the service answers with the fifth movie:
    the skip [(page-1)*limit] is computed in 32 bits and comes out as 4. *)
Theorem GetMovies_skip_overflows :
  Z.of_nat (size (mongo.docs five_movies)) = 5
  /\ 1 <= 42949674 <= MaxInt32
  /\ 5 <= (42949674 - 1) * 100
  /\ wrap32 ((42949674 - 1) * 100) = 4
  /\ (services.GetMovies (domain.mkFilter 42949674 100) five_movies).1
     = Ok ([domain.mkMovie 5 "Five" "2005"], 5).
Proof.
  split; [vm_compute; reflexivity|].
  split; [unfold MaxInt32; lia|].
  split; [lia|].
  split; vm_compute; reflexivity.
Qed.

(** A skip that wraps below zero is refused by the store, and the listing
    fails. *)
Example GetMovies_skip_negative :
  (services.GetMovies (domain.mkFilter 21474838 100) five_movies).1
  = Err (fmt_Errorf "failed to get movies" []
           (fmt_Errorf "failed to find movies" [] driver_error)).
Proof. vm_compute. reflexivity. Qed.

Example GetMovies_second_page :
  (services.GetMovies (domain.mkFilter 2 2) five_movies).1
  = Ok ([domain.mkMovie 3 "Three" "2003"; domain.mkMovie 4 "Four" "2004"], 5).
Proof. vm_compute. reflexivity. Qed.

(** ** More on the entity *)

(** X1: the constructor succeeds exactly on a title that is not empty and
    a year of four digits denoting a number of [1800 .. currentYear + 10],
    and then returns the movie made of its three arguments; a signed year
    is never accepted. *)
Theorem NewMovie_accepts_exactly (currentYear id : Z) (title year : string) :
  ((exists m, domain.NewMovie currentYear id title year = Ok m) <->
   title <> "" /\ four_digits year = true
   /\ 1800 <= decimal year <= currentYear + 10)
  /\ (forall m, domain.NewMovie currentYear id title year = Ok m ->
        m = domain.mkMovie id title year)
  /\ (signed_three_digits year = true ->
        exists e, domain.NewMovie currentYear id title year = Err e).
Proof.
  assert (Hiff : valid_input currentYear title year = true <->
                 title <> "" /\ four_digits year = true
                 /\ 1800 <= decimal year <= currentYear + 10).
  { unfold valid_input. rewrite !andb_true_iff, negb_true_iff, !Z.leb_le.
    rewrite String.eqb_neq. tauto. }
  split; [|split].
  - rewrite <- Hiff. split.
    + intros [m Hm]. apply NewMovie_ok_iff in Hm. tauto.
    + intros Hv. exists (domain.mkMovie id title year).
      apply NewMovie_ok_iff. auto.
  - intros m Hm. apply NewMovie_ok_iff in Hm. tauto.
  - intros Hsigned.
    destruct (domain.NewMovie currentYear id title year) as [m|e] eqn:HN; [|eauto].
    exfalso. apply NewMovie_ok_iff in HN as [Hv _]. apply Hiff in Hv as (_ & H4 & _).
    destruct year as [|s0 rest]; [discriminate Hsigned|].
    unfold four_digits in H4. simpl in H4, Hsigned.
    apply andb_true_iff in H4 as [_ H4]. apply andb_true_iff in H4 as [Hd _].
    apply digit_not_sign in Hd. rewrite Hd in Hsigned. discriminate Hsigned.
Qed.

(** Of four bytes [Atoi] reads exactly four digits, or a sign and three
    digits. *)
Lemma Atoi_four_bytes y :
  String.length y = 4%nat ->
  (is_Some (strconv.Atoi y) <->
   four_digits y = true \/ signed_three_digits y = true).
Proof.
  intros Hlen. split.
  - intros [v HA]. destruct y as [|s0 rest]; [discriminate Hlen|].
    unfold strconv.Atoi in HA. unfold signed_three_digits.
    simpl in Hlen. injection Hlen as Hlen.
    destruct (strconv.is_sign s0) eqn:Hsign.
    + right. destruct rest as [|r0 rest']; [discriminate HA|].
      destruct (strconv.digits (String r0 rest') 0) as [n|] eqn:Hd; [|discriminate HA].
      apply digits_sound in Hd as [Hall _].
      rewrite Hlen, Hall. reflexivity.
    + left. destruct (strconv.digits (String s0 rest) 0) as [n|] eqn:Hd; [|discriminate HA].
      apply digits_sound in Hd as [Hall _].
      unfold four_digits. rewrite Hall. simpl. rewrite Hlen. reflexivity.
  - intros [H4|Hs].
    + destruct (Atoi_four_digits y H4) as [-> _]. eauto.
    + destruct y as [|s0 rest]; [discriminate Hs|]. simpl in Hs.
      apply andb_true_iff in Hs as [Hs Hall]. apply andb_true_iff in Hs as [Hsign Hl3].
      apply Nat.eqb_eq in Hl3.
      pose proof (decimal_from_bounds rest 0 Hall ltac:(lia)) as Hb.
      rewrite Hl3 in Hb. change (Z.of_nat 3) with 3 in Hb.
      unfold strconv.Atoi. rewrite Hsign.
      destruct rest as [|r0 rest']; [discriminate Hl3|].
      rewrite (digits_complete _ 0 Hall).
      set (n := decimal_from 0 (String r0 rest')) in *.
      assert (Hint : forall v, -1000 < v < 1000 -> is_int v = true).
      { intros v Hv. unfold is_int. apply andb_true_iff. split; apply Z.leb_le; lia. }
      destruct (Ascii.eqb s0 "-"%char); rewrite Hint by lia; eauto.
Qed.

(** X2: the validator accepts exactly a title that is not empty with a
    year that is four digits or a sign followed by three digits; years
    such as [+123] and [-001] pass. *)
Theorem Validate_accepts_exactly (m : domain.Movie) :
  domain.Validate m = None <->
  domain.Title m <> ""
  /\ (four_digits (domain.Year m) = true
      \/ signed_three_digits (domain.Year m) = true).
Proof.
  rewrite Validate_ok_iff. split.
  - intros (Ht & Hlen & v & HA). split; [exact Ht|].
    apply (Atoi_four_bytes _ Hlen). eauto.
  - intros (Ht & Hy).
    assert (Hlen : String.length (domain.Year m) = 4%nat).
    { destruct Hy as [H4|Hs].
      - unfold four_digits in H4. apply andb_true_iff in H4 as [H4 _].
        apply Nat.eqb_eq in H4. exact H4.
      - destruct (domain.Year m) as [|s0 rest]; [discriminate Hs|]. simpl in Hs.
        apply andb_true_iff in Hs as [Hs _]. apply andb_true_iff in Hs as [_ Hl3].
        apply Nat.eqb_eq in Hl3. simpl. rewrite Hl3. reflexivity. }
    split; [exact Ht|]. split; [exact Hlen|].
    apply (Atoi_four_bytes _ Hlen) in Hy as [v Hv]. eauto.
Qed.

(** X3: an update never changes the id; it returns no error exactly when
    the movie with the fields it leaves -- each the new value unless that
    is empty -- passes the validator, and then the movie is left with
    exactly these fields. *)
Theorem Update_outcome (m : domain.Movie) (title year : string) :
  domain.ID (domain.Update m title year).1 = domain.ID m
  /\ ((domain.Update m title year).2 = None <->
      domain.Validate
        (domain.mkMovie (domain.ID m) (updated_field (domain.Title m) title)
                        (updated_field (domain.Year m) year)) = None)
  /\ ((domain.Update m title year).2 = None ->
      (domain.Update m title year).1
      = domain.mkMovie (domain.ID m) (updated_field (domain.Title m) title)
                       (updated_field (domain.Year m) year)).
Proof.
  destruct m as [i t0 y0]. unfold domain.Update, updated_field. simpl.
  destruct (String.eqb_spec title "") as [->|Ht];
    destruct (String.eqb_spec year "") as [->|Hy]; simpl.
  - repeat split; auto.
  - destruct (Nat.eqb (String.length year) 4) eqn:Hlen; simpl.
    + destruct (strconv.Atoi year) eqn:HA; simpl.
      * repeat split; auto.
      * unfold domain.Validate. simpl.
        destruct (String.eqb_spec year ""); [contradiction|].
        rewrite Hlen, HA. simpl.
        destruct (String.eqb t0 ""); repeat split; intros; discriminate.
    + unfold domain.Validate. simpl.
      destruct (String.eqb_spec year ""); [contradiction|].
      rewrite Hlen. simpl.
      destruct (String.eqb t0 ""); repeat split; intros; discriminate.
  - repeat split; auto.
  - destruct (Nat.eqb (String.length year) 4) eqn:Hlen; simpl.
    + destruct (strconv.Atoi year) eqn:HA; simpl.
      * repeat split; auto.
      * unfold domain.Validate. simpl.
        destruct (String.eqb_spec title ""); [contradiction|].
        destruct (String.eqb_spec year ""); [contradiction|].
        rewrite Hlen, HA. simpl. repeat split; intros; discriminate.
    + unfold domain.Validate. simpl.
      destruct (String.eqb_spec title ""); [contradiction|].
      destruct (String.eqb_spec year ""); [contradiction|].
      rewrite Hlen. simpl. repeat split; intros; discriminate.
Qed.

(** X4: [IsEqual] holds exactly of two movies with the same id, title and
    year, and a copy is equal to its original. *)
Theorem IsEqual_iff (m other : domain.Movie) :
  (domain.IsEqual m other = true <-> m = other)
  /\ domain.IsEqual m (domain.Copy m) = true.
Proof.
  destruct m as [i t y], other as [i' t' y']. unfold domain.IsEqual, domain.Copy. simpl.
  split.
  - rewrite !andb_true_iff, Z.eqb_eq, !String.eqb_eq. split.
    + intros [[-> ->] ->]. reflexivity.
    + intros [= -> -> ->]. auto.
  - rewrite Z.eqb_refl, !String.eqb_refl. reflexivity.
Qed.

(** ** More on the repository *)

Lemma round_trip_docs q c : mongo.docs (mongo.round_trip q c).2 = mongo.docs c.
Proof. unfold mongo.round_trip. destruct (mongo.faults c); reflexivity. Qed.


Lemma healthy_after c c' :
  mongo.faults c' = tl (mongo.faults c) -> healthy c = true -> healthy c' = true.
Proof.
  unfold healthy. intros -> H. destruct (mongo.faults c) as [|b fs]; simpl in *.
  - reflexivity.
  - apply andb_true_iff in H. tauto.
Qed.

Lemma decode_encode m : mongo.decode (domain.ID m, mongo.encode m) = m.
Proof. destruct m. reflexivity. Qed.

Lemma encode_decode k d : mongo.encode (mongo.decode (k, d)) = d.
Proof. destruct d. reflexivity. Qed.

(** X5: on a store that answers, a movie that passes the validator (and
    the store's schema, where installed) and whose id is free is created,
    and is then found under its id, equal to what was given; the
    collection has grown by one. *)
Theorem Create_then_FindByID (m : domain.Movie) (c : mongo.Collection) :
  healthy c = true -> domain.Validate m = None ->
  (mongo.validated c = true -> four_digits (domain.Year m) = true) ->
  mongo.docs c !! domain.ID m = None ->
  exists c1 c2,
    database.Create m c = (Ok m, c1)
    /\ database.FindByID (domain.ID m) c1 = (Ok m, c2)
    /\ (database.ExistsByID (domain.ID m) c1).1 = Ok true
    /\ size (mongo.docs c1) = Datatypes.S (size (mongo.docs c)).
Proof.
  intros H HV Hs Hfresh.
  destruct (Create_healthy c m H HV Hs Hfresh) as (c1 & Hc & Hd1 & _ & H1).
  destruct (FindByID_healthy c1 (domain.ID m) H1) as (c2 & Hf & _).
  destruct (ExistsByID_healthy c1 (domain.ID m) H1) as (c3 & He & _).
  exists c1, c2. rewrite Hc, Hf, He, Hd1, lookup_insert_eq, decode_encode.
  repeat split. apply map_size_insert_None, Hfresh.
Qed.

Lemma Create_then_FindByID_witness :
  exists c1 c2,
    database.Create (domain.mkMovie 2 "Movie 2" "2022") (c_of one_movie [])
    = (Ok (domain.mkMovie 2 "Movie 2" "2022"), c1)
    /\ database.FindByID 2 c1 = (Ok (domain.mkMovie 2 "Movie 2" "2022"), c2)
    /\ (database.ExistsByID 2 c1).1 = Ok true
    /\ size (mongo.docs c1) = Datatypes.S (size (mongo.docs (c_of one_movie []))).
Proof.
  apply (Create_then_FindByID (domain.mkMovie 2 "Movie 2" "2022") (c_of one_movie [])).
  - reflexivity.
  - reflexivity.
  - discriminate.
  - vm_compute. reflexivity.
Defined.

(** X6: creating a valid movie under an id that is taken fails with
    [ErrMovieAlreadyExists] and leaves every document as it was: the stored
    movie is not overwritten. *)
Theorem Create_existing_id (m : domain.Movie) (c : mongo.Collection) (d : mongo.Doc) :
  hd false (mongo.faults c) = false -> domain.Validate m = None ->
  (mongo.validated c = true -> four_digits (domain.Year m) = true) ->
  mongo.docs c !! domain.ID m = Some d ->
  exists c1,
    database.Create m c = (Err ErrMovieAlreadyExists, c1)
    /\ mongo.docs c1 = mongo.docs c
    /\ kind ErrMovieAlreadyExists = AlreadyExists.
Proof.
  intros H HV Hs Htaken. unfold database.Create, mongo.InsertOne.
  rewrite HV, (round_trip_hd _ _ H), Htaken.
  assert (mongo.validated c && negb (mongo.schema_ok m) = false) as ->.
  { destruct (mongo.validated c); [|reflexivity].
    unfold mongo.schema_ok. rewrite Hs; reflexivity. }
  eexists. repeat split.
Qed.

Lemma Create_existing_id_witness :
  exists c1,
    database.Create (domain.mkMovie 1 "Another" "1999") (c_of one_movie [])
    = (Err ErrMovieAlreadyExists, c1)
    /\ mongo.docs c1 = mongo.docs (c_of one_movie [])
    /\ kind ErrMovieAlreadyExists = AlreadyExists.
Proof.
  apply (Create_existing_id (domain.mkMovie 1 "Another" "1999") (c_of one_movie [])
           (mongo.mkDoc "Test Movie" "2023")).
  - reflexivity.
  - reflexivity.
  - discriminate.
  - vm_compute. reflexivity.
Defined.

(** X7: on a store that answers, deleting a stored id succeeds, removes
    that document and no other, and a lookup of the id then reports
    [ErrMovieNotFound]. *)
Theorem Delete_then_FindByID (id : Z) (c : mongo.Collection) (d : mongo.Doc) :
  healthy c = true -> mongo.docs c !! id = Some d ->
  exists c1 c2,
    database.Delete id c = (None, c1)
    /\ mongo.docs c1 = delete id (mongo.docs c)
    /\ (forall k, k <> id -> mongo.docs c1 !! k = mongo.docs c !! k)
    /\ database.FindByID id c1 = (Err ErrMovieNotFound, c2)
    /\ (database.ExistsByID id c1).1 = Ok false.
Proof.
  intros H Hd. unfold database.Delete, mongo.DeleteOne.
  rewrite (round_trip_hd _ _ (healthy_hd _ H)), Hd. simpl.
  set (c1 := mongo.mkCollection _ _ _ _).
  assert (H1 : healthy c1 = true) by (apply (healthy_after c); [reflexivity|exact H]).
  destruct (FindByID_healthy c1 id H1) as (c2 & Hf & _).
  destruct (ExistsByID_healthy c1 id H1) as (c3 & He & _).
  exists c1, c2. rewrite Hf, He. subst c1. simpl. rewrite lookup_delete_eq.
  repeat split. intros k Hk. apply lookup_delete_ne. congruence.
Qed.

Lemma Delete_then_FindByID_witness :
  exists c1 c2,
    database.Delete 1 (c_of one_movie []) = (None, c1)
    /\ mongo.docs c1 = delete 1 (mongo.docs (c_of one_movie []))
    /\ (forall k, k <> 1 -> mongo.docs c1 !! k = mongo.docs (c_of one_movie []) !! k)
    /\ database.FindByID 1 c1 = (Err ErrMovieNotFound, c2)
    /\ (database.ExistsByID 1 c1).1 = Ok false.
Proof.
  apply (Delete_then_FindByID 1 (c_of one_movie []) (mongo.mkDoc "Test Movie" "2023")).
  - reflexivity.
  - vm_compute. reflexivity.
Defined.

(** X8: on a store that answers, [ExistsByID] says yes exactly when
    [FindByID] returns a movie, which then carries the id asked for, and
    says no exactly when [FindByID] reports [ErrMovieNotFound]. *)
Theorem ExistsByID_agrees_with_FindByID (id : Z) (c : mongo.Collection) :
  healthy c = true ->
  ((database.ExistsByID id c).1 = Ok true <->
   exists m, (database.FindByID id c).1 = Ok m)
  /\ (forall m, (database.FindByID id c).1 = Ok m -> domain.ID m = id)
  /\ ((database.ExistsByID id c).1 = Ok false <->
      (database.FindByID id c).1 = Err ErrMovieNotFound).
Proof.
  intros H.
  destruct (FindByID_healthy c id H) as (c1 & -> & _).
  destruct (ExistsByID_healthy c id H) as (c2 & -> & _). simpl.
  destruct (mongo.docs c !! id) as [d|]; repeat split;
    try (intros; discriminate); try (intros [m Hm]; discriminate Hm); eauto.
  intros m [= <-]. reflexivity.
Qed.

Lemma ExistsByID_agrees_with_FindByID_witness :
  ((database.ExistsByID 1 (c_of one_movie [])).1 = Ok true <->
   exists m, (database.FindByID 1 (c_of one_movie [])).1 = Ok m)
  /\ (forall m, (database.FindByID 1 (c_of one_movie [])).1 = Ok m -> domain.ID m = 1)
  /\ ((database.ExistsByID 1 (c_of one_movie [])).1 = Ok false <->
      (database.FindByID 1 (c_of one_movie [])).1 = Err ErrMovieNotFound).
Proof.
  apply (ExistsByID_agrees_with_FindByID 1 (c_of one_movie [])). reflexivity.
Defined.

Lemma page_lookup {A} (l : list A) (limit : Z) (n i : nat) (x : A) :
  mongo.apply_limit limit (drop n l) !! i = Some x -> l !! (n + i)%nat = Some x.
Proof.
  unfold mongo.apply_limit. destruct (limit =? 0).
  - rewrite lookup_drop. auto.
  - intros H. apply lookup_take_Some in H as [H _]. rewrite lookup_drop in H. exact H.
Qed.

Lemma page_length {A} (l : list A) (limit : Z) :
  0 < limit -> Z.of_nat (length (mongo.apply_limit limit l)) <= limit.
Proof.
  intros Hl. unfold mongo.apply_limit. destruct (Z.eqb_spec limit 0); [lia|].
  rewrite length_take. lia.
Qed.

(** A page is made of stored movies in strictly ascending order of id, no
    more of them than a limit above zero allows. *)
Lemma FindAll_page (filter : domain.MovieFilter) (c c1 : mongo.Collection)
    (movies : list domain.Movie) :
  database.FindAll filter c = (Ok movies, c1) ->
  (0 < domain.Limit filter -> Z.of_nat (length movies) <= domain.Limit filter)
  /\ (forall i j a b, movies !! i = Some a -> movies !! j = Some b ->
        (i < j)%nat -> domain.ID a < domain.ID b)
  /\ (forall m, m ∈ movies -> mongo.docs c !! domain.ID m = Some (mongo.encode m))
  /\ mongo.docs c1 = mongo.docs c.
Proof.
  unfold database.FindAll, mongo.Find.
  set (skip := wrap32 (wrap32 (domain.Page filter - 1) * domain.Limit filter)).
  pose proof (round_trip_docs (mongo.QFind skip (domain.Limit filter)) c) as Hdocs.
  destruct (mongo.round_trip _ c) as [failed c0]. simpl in Hdocs.
  destruct failed; [discriminate|].
  destruct (skip <? 0); [discriminate|].
  intros [= <- <-].
  assert (Hat : forall i a,
             (mongo.decode <$> mongo.apply_limit (domain.Limit filter)
                (drop (Z.to_nat skip) (mongo.sorted_asc (mongo.docs c)))) !! i = Some a ->
             exists kd, mongo.sorted_asc (mongo.docs c) !! (Z.to_nat skip + i)%nat = Some kd
                        /\ a = mongo.decode kd).
  { intros i a Hi. rewrite list_lookup_fmap in Hi.
    apply fmap_Some in Hi as (kd & Hkd & ->).
    exists kd. split; [|reflexivity]. eapply page_lookup. exact Hkd. }
  split; [|split; [|split]].
  - intros Hl. rewrite length_fmap. apply page_length, Hl.
  - intros i j a b Hi Hj Hlt.
    apply Hat in Hi as (ka & Hka & ->). apply Hat in Hj as (kb & Hkb & ->).
    simpl. eapply sorted_asc_strict; [exact Hka|exact Hkb|lia].
  - intros m Hm. apply list_elem_of_lookup in Hm as [i Hi].
    apply Hat in Hi as ([k d] & Hkd & ->).
    simpl. rewrite encode_decode. apply elem_of_sorted_asc.
    apply list_elem_of_lookup. eauto.
  - exact Hdocs.
Qed.

(** X9: whatever [FindAll] returns, for any filter and any store, is made
    of stored movies in strictly ascending order of id, no more of them
    than a limit above zero allows; the documents are left as they were. *)
Theorem FindAll_result (filter : domain.MovieFilter) (c c1 : mongo.Collection)
    (movies : list domain.Movie) :
  database.FindAll filter c = (Ok movies, c1) ->
  (0 < domain.Limit filter -> Z.of_nat (length movies) <= domain.Limit filter)
  /\ (forall i j a b, movies !! i = Some a -> movies !! j = Some b ->
        (i < j)%nat -> domain.ID a < domain.ID b)
  /\ (forall m, m ∈ movies -> mongo.docs c !! domain.ID m = Some (mongo.encode m))
  /\ mongo.docs c1 = mongo.docs c.
Proof. apply FindAll_page. Qed.

Lemma FindAll_result_witness :
  (0 < 2 -> Z.of_nat (length [domain.mkMovie 3 "Three" "2003"; domain.mkMovie 4 "Four" "2004"]) <= 2)
  /\ (forall i j a b,
        [domain.mkMovie 3 "Three" "2003"; domain.mkMovie 4 "Four" "2004"] !! i = Some a ->
        [domain.mkMovie 3 "Three" "2003"; domain.mkMovie 4 "Four" "2004"] !! j = Some b ->
        (i < j)%nat -> domain.ID a < domain.ID b)
  /\ (forall m, m ∈ [domain.mkMovie 3 "Three" "2003"; domain.mkMovie 4 "Four" "2004"] ->
        mongo.docs five_movies !! domain.ID m = Some (mongo.encode m))
  /\ mongo.docs (mongo.mkCollection (mongo.docs five_movies) false [] [mongo.QFind 2 2])
     = mongo.docs five_movies.
Proof.
  apply (FindAll_result (domain.mkFilter 2 2) five_movies
           (mongo.mkCollection (mongo.docs five_movies) false [] [mongo.QFind 2 2])
           [domain.mkMovie 3 "Three" "2003"; domain.mkMovie 4 "Four" "2004"]).
  vm_compute. reflexivity.
Defined.



(** X11: the five reading operations never change a document, whatever
    the store and whether or not the driver call fails. *)
Theorem reads_leave_documents (filter : domain.MovieFilter) (id : Z)
    (c : mongo.Collection) :
  mongo.docs (database.FindAll filter c).2 = mongo.docs c
  /\ mongo.docs (database.FindByID id c).2 = mongo.docs c
  /\ mongo.docs (database.Count c).2 = mongo.docs c
  /\ mongo.docs (database.ExistsByID id c).2 = mongo.docs c
  /\ mongo.docs (database.GetNextID c).2 = mongo.docs c.
Proof.
  unfold database.FindAll, mongo.Find, database.FindByID, mongo.FindOneByID,
    database.Count, mongo.CountAll, database.ExistsByID, mongo.CountByID,
    database.GetNextID, mongo.FindOneMaxID, mongo.round_trip.
  destruct (mongo.faults c) as [|[|] fs]; simpl;
    repeat match goal with
           | |- context [if ?b then _ else _] => destruct b
           | |- context [match ?o with Some _ => _ | None => _ end] => destruct o
           end; simpl; repeat split.
Qed.

(** X12: where the store answers and its highest id is an [int32] below
    the last one, the next id is free and above every stored id. *)
Theorem GetNextID_fresh (c : mongo.Collection) :
  hd false (mongo.faults c) = false ->
  match max_id (mongo.docs c) with
  | Some m => MinInt32 <= m < MaxInt32
  | None => True
  end ->
  exists id,
    (database.GetNextID c).1 = Ok id
    /\ mongo.docs c !! id = None
    /\ forall k, is_Some (mongo.docs c !! k) -> k < id.
Proof.
  intros H Hmax. rewrite (GetNextID_hd c H). simpl.
  destruct (max_id (mongo.docs c)) as [m|] eqn:Hm.
  - exists (m + 1). rewrite wrap32_small by (unfold is_int32; lia).
    apply max_id_Some in Hm as [_ Hub].
    assert (Hlt : forall k, is_Some (mongo.docs c !! k) -> k < m + 1).
    { intros k Hk. specialize (Hub k Hk). lia. }
    repeat split; [|exact Hlt].
    destruct (mongo.docs c !! (m + 1)) eqn:Hl; [|reflexivity].
    specialize (Hlt (m + 1) ltac:(eauto)). lia.
  - exists 1. apply max_id_None in Hm. rewrite Hm. repeat split.
    intros k [d Hk]. rewrite lookup_empty in Hk. discriminate Hk.
Qed.

Lemma GetNextID_fresh_witness :
  exists id,
    (database.GetNextID five_movies).1 = Ok id
    /\ mongo.docs five_movies !! id = None
    /\ forall k, is_Some (mongo.docs five_movies !! k) -> k < id.
Proof.
  apply (GetNextID_fresh five_movies).
  - reflexivity.
  - replace (max_id (mongo.docs five_movies)) with (Some 5)
      by (vm_compute; reflexivity).
    unfold MinInt32, MaxInt32. lia.
Defined.

(** ** More on the service *)

Lemma GetNextID_docs c : mongo.docs (database.GetNextID c).2 = mongo.docs c.
Proof.
  unfold database.GetNextID, mongo.FindOneMaxID.
  pose proof (round_trip_docs mongo.QFindOneMaxID c) as H.
  destruct (mongo.round_trip _ c) as [[|] c1]; simpl in *; [exact H|].
  destruct (head _); exact H.
Qed.

Lemma ExistsByID_docs id c : mongo.docs (database.ExistsByID id c).2 = mongo.docs c.
Proof.
  unfold database.ExistsByID, mongo.CountByID.
  pose proof (round_trip_docs (mongo.QCountByID id) c) as H.
  destruct (mongo.round_trip _ c) as [[|] c1]; simpl in *; exact H.
Qed.

Lemma FindByID_docs id c : mongo.docs (database.FindByID id c).2 = mongo.docs c.
Proof.
  unfold database.FindByID, mongo.FindOneByID.
  pose proof (round_trip_docs (mongo.QFindOneByID id) c) as H.
  destruct (mongo.round_trip _ c) as [[|] c1]; simpl in *; [exact H|].
  destruct (mongo.docs c !! id); exact H.
Qed.

Lemma Count_docs c : mongo.docs (database.Count c).2 = mongo.docs c.
Proof.
  unfold database.Count, mongo.CountAll.
  pose proof (round_trip_docs mongo.QCountAll c) as H.
  destruct (mongo.round_trip _ c) as [[|] c1]; simpl in *; exact H.
Qed.

(** What the repository's create does to the documents, on any store. *)
Lemma Create_effect m c :
  (exists e, (database.Create m c).1 = Err e
             /\ mongo.docs (database.Create m c).2 = mongo.docs c)
  \/ ((database.Create m c).1 = Ok m
      /\ mongo.docs c !! domain.ID m = None
      /\ mongo.docs (database.Create m c).2
         = <[domain.ID m := mongo.encode m]> (mongo.docs c)).
Proof.
  unfold database.Create, mongo.InsertOne.
  destruct (domain.Validate m); [left; eauto|].
  pose proof (round_trip_docs (mongo.QInsertOne (domain.ID m)) c) as H.
  destruct (mongo.round_trip _ c) as [[|] c1]; simpl in *; [left; eauto|].
  destruct (mongo.validated c && negb (mongo.schema_ok m)); [left; eauto|].
  destruct (mongo.docs c !! domain.ID m) eqn:Hl; [left; eauto|].
  right. simpl. rewrite H. auto.
Qed.

(** What the repository's delete does to the documents, on any store. *)
Lemma Delete_effect id c :
  (exists e, (database.Delete id c).1 = Some e
             /\ mongo.docs (database.Delete id c).2 = mongo.docs c)
  \/ ((database.Delete id c).1 = None
      /\ is_Some (mongo.docs c !! id)
      /\ mongo.docs (database.Delete id c).2 = delete id (mongo.docs c)).
Proof.
  unfold database.Delete, mongo.DeleteOne.
  pose proof (round_trip_docs (mongo.QDeleteOne id) c) as H.
  destruct (mongo.round_trip _ c) as [[|] c1]; simpl in *; [left; eauto|].
  destruct (mongo.docs c !! id) eqn:Hl; simpl.
  - right. rewrite H. eauto.
  - left. eauto.
Qed.

(** X13: whatever the store, the input and the failures of the driver,
    [CreateMovie] keeps every document that was stored; when it returns an
    error it has written nothing, and when it returns a movie, the request
    was acceptable, the movie carries the title and year asked for, its id
    was free, and the one new document is that movie. *)
Theorem CreateMovie_effect (currentYear : Z) (title year : string)
    (c : mongo.Collection) :
  (forall k d, mongo.docs c !! k = Some d ->
     mongo.docs (services.CreateMovie currentYear title year c).2 !! k = Some d)
  /\ (forall e, (services.CreateMovie currentYear title year c).1 = Err e ->
        mongo.docs (services.CreateMovie currentYear title year c).2 = mongo.docs c)
  /\ (forall m, (services.CreateMovie currentYear title year c).1 = Ok m ->
        m = domain.mkMovie (domain.ID m) title year
        /\ valid_input currentYear title year = true
        /\ mongo.docs c !! domain.ID m = None
        /\ mongo.docs (services.CreateMovie currentYear title year c).2
           = <[domain.ID m := mongo.mkDoc title year]> (mongo.docs c)).
Proof.
  assert (Hcases :
    (exists e, (services.CreateMovie currentYear title year c).1 = Err e
               /\ mongo.docs (services.CreateMovie currentYear title year c).2
                  = mongo.docs c)
    \/ (exists id, (services.CreateMovie currentYear title year c).1
                   = Ok (domain.mkMovie id title year)
                   /\ valid_input currentYear title year = true
                   /\ mongo.docs c !! id = None
                   /\ mongo.docs (services.CreateMovie currentYear title year c).2
                      = <[id := mongo.mkDoc title year]> (mongo.docs c))).
  { unfold services.CreateMovie.
    change (ports.GetNextID c) with (database.GetNextID c).
    pose proof (GetNextID_docs c) as H1.
    destruct (database.GetNextID c) as [[nextID|e1] c1]; simpl in H1; [|left; eauto].
    destruct (domain.NewMovie currentYear nextID title year) as [movie|e2] eqn:HN;
      [|left; eauto].
    apply NewMovie_ok_iff in HN as [Hvalid ->]. simpl.
    change (ports.ExistsByID nextID c1) with (database.ExistsByID nextID c1).
    pose proof (ExistsByID_docs nextID c1) as H2.
    destruct (database.ExistsByID nextID c1) as [[[|]|e3] c2]; simpl in H2;
      [left; eexists; split; [reflexivity|simpl; congruence] | |
       left; eexists; split; [reflexivity|simpl; congruence]].
    change (ports.Create (domain.mkMovie nextID title year) c2)
      with (database.Create (domain.mkMovie nextID title year) c2).
    destruct (Create_effect (domain.mkMovie nextID title year) c2)
      as [(e & He & Hd)|(Hok & Hfresh & Hd)].
    - left. destruct (database.Create _ c2) as [[m'|e'] c3]; simpl in *;
        [discriminate He|]. eexists. split; [reflexivity|]. simpl. congruence.
    - right. exists nextID.
      destruct (database.Create _ c2) as [[m'|e'] c3]; simpl in *;
        [|discriminate Hok].
      injection Hok as ->. rewrite H2, H1 in Hfresh, Hd. auto. }
  destruct Hcases as [(e & He & Hd)|(id & Hok & Hvalid & Hfresh & Hd)].
  - rewrite He, Hd. repeat split; auto; intros; discriminate.
  - rewrite Hok, Hd. split; [|split].
    + intros k d Hk. rewrite lookup_insert_ne; [exact Hk|]. congruence.
    + intros e He. discriminate He.
    + intros m [= <-]. auto.
Qed.

(** X14: whatever the store and the failures of the driver, [DeleteMovie]
    touches no document but the one of the id given; when it returns an
    error nothing was deleted, and when it returns none, the id was above
    zero and stored, and its document is gone. *)
Theorem DeleteMovie_effect (id : Z) (c : mongo.Collection) :
  (forall k, k <> id ->
     mongo.docs (services.DeleteMovie id c).2 !! k = mongo.docs c !! k)
  /\ (forall e, (services.DeleteMovie id c).1 = Some e ->
        mongo.docs (services.DeleteMovie id c).2 = mongo.docs c)
  /\ ((services.DeleteMovie id c).1 = None ->
        0 < id /\ is_Some (mongo.docs c !! id)
        /\ mongo.docs (services.DeleteMovie id c).2 = delete id (mongo.docs c)).
Proof.
  assert (Hcases :
    (exists e, (services.DeleteMovie id c).1 = Some e
               /\ mongo.docs (services.DeleteMovie id c).2 = mongo.docs c)
    \/ ((services.DeleteMovie id c).1 = None /\ 0 < id
        /\ is_Some (mongo.docs c !! id)
        /\ mongo.docs (services.DeleteMovie id c).2 = delete id (mongo.docs c))).
  { unfold services.DeleteMovie.
    destruct (Z.leb_spec id 0); [left; eauto|].
    change (ports.ExistsByID id c) with (database.ExistsByID id c).
    pose proof (ExistsByID_docs id c) as H1.
    destruct (database.ExistsByID id c) as [[[|]|e1] c1]; simpl in H1;
      [|left; eauto|left; eauto].
    change (ports.Delete id c1) with (database.Delete id c1).
    destruct (Delete_effect id c1) as [(e & He & Hd)|(Hok & Hin & Hd)].
    - left. destruct (database.Delete id c1) as [[e'|] c2]; simpl in *;
        [|discriminate He]. eexists. split; [reflexivity|]. simpl. congruence.
    - right. destruct (database.Delete id c1) as [[e'|] c2]; simpl in *;
        [discriminate Hok|]. rewrite H1 in Hin, Hd. auto. }
  destruct Hcases as [(e & He & Hd)|(Hok & Hpos & Hin & Hd)].
  - rewrite He, Hd. repeat split; auto; intros; discriminate.
  - rewrite Hok, Hd. split; [|split].
    + intros k Hk. apply lookup_delete_ne. congruence.
    + intros e He. discriminate He.
    + auto.
Qed.

(** X15: over any repository, [GetMovie] never returns the bare
    [ErrMovieNotFound]: what the repository reports comes back wrapped, so
    that a comparison of the error with that sentinel never holds. *)
Theorem GetMovie_never_bare_NotFound
    (S : Type) (repo : ports.MovieRepository S) (id : Z) (s : S) :
  (services.GetMovie id s).1 <> Err ErrMovieNotFound
  /\ (forall e, (ports.FindByID id s).1 = Err e -> 0 < id ->
        (services.GetMovie id s).1
        = Err (fmt_Errorf "failed to get movie with id %d" [id] e)).
Proof.
  unfold services.GetMovie. split.
  - destruct (id <=? 0); [discriminate|].
    destruct (ports.FindByID id s) as [[m|e] s1]; discriminate.
  - intros e He Hid. destruct (Z.leb_spec id 0); [lia|].
    destruct (ports.FindByID id s) as [[m|e'] s1]; simpl in *; congruence.
Qed.

Lemma GetMovie_absent_or_present_aux (id : Z) (c : mongo.Collection) :
  0 < id -> healthy c = true ->
  exists c1,
    services.GetMovie id c
    = (match mongo.docs c !! id with
       | Some d => Ok (domain.mkMovie id (mongo.title d) (mongo.year d))
       | None => Err (fmt_Errorf "failed to get movie with id %d" [id] ErrMovieNotFound)
       end, c1)
    /\ preserved c c1.
Proof.
  intros Hid H. unfold services.GetMovie.
  destruct (Z.leb_spec id 0); [lia|].
  change (ports.FindByID id c) with (database.FindByID id c).
  destruct (FindByID_healthy c id H) as (c1 & -> & Hp).
  exists c1. destruct (mongo.docs c !! id); split; auto.
Qed.

(** X16: on a store that answers, [GetMovie] of an id above zero returns
    the stored movie under that id, or, when there is none, an error of
    kind [NotFound] that wraps [ErrMovieNotFound]; no document changes. *)
Theorem GetMovie_found_or_not (id : Z) (c : mongo.Collection) :
  0 < id -> healthy c = true ->
  exists c1,
    services.GetMovie id c
    = (match mongo.docs c !! id with
       | Some d => Ok (domain.mkMovie id (mongo.title d) (mongo.year d))
       | None => Err (fmt_Errorf "failed to get movie with id %d" [id] ErrMovieNotFound)
       end, c1)
    /\ preserved c c1
    /\ kind (fmt_Errorf "failed to get movie with id %d" [id] ErrMovieNotFound) = NotFound.
Proof.
  intros Hid H. unfold services.GetMovie.
  destruct (Z.leb_spec id 0); [lia|].
  change (ports.FindByID id c) with (database.FindByID id c).
  destruct (FindByID_healthy c id H) as (c1 & -> & Hp).
  exists c1. destruct (mongo.docs c !! id); repeat split; apply Hp.
Qed.

Lemma GetMovie_found_or_not_witness :
  exists c1,
    services.GetMovie 999 (c_of one_movie [])
    = (match mongo.docs (c_of one_movie []) !! 999 with
       | Some d => Ok (domain.mkMovie 999 (mongo.title d) (mongo.year d))
       | None => Err (fmt_Errorf "failed to get movie with id %d" [999] ErrMovieNotFound)
       end, c1)
    /\ preserved (c_of one_movie []) c1
    /\ kind (fmt_Errorf "failed to get movie with id %d" [999] ErrMovieNotFound) = NotFound.
Proof.
  apply (GetMovie_found_or_not 999 (c_of one_movie [])).
  - lia.
  - reflexivity.
Defined.

(** X17: on a store that answers, [DeleteMovie] of a stored id above zero
    succeeds and removes that document; the same call once more reports
    [ErrMovieNotFound] and changes nothing. *)
Theorem DeleteMovie_then_again (id : Z) (c : mongo.Collection) (d : mongo.Doc) :
  0 < id -> healthy c = true -> mongo.docs c !! id = Some d ->
  exists c1 c2,
    services.DeleteMovie id c = (None, c1)
    /\ mongo.docs c1 = delete id (mongo.docs c)
    /\ services.DeleteMovie id c1 = (Some ErrMovieNotFound, c2)
    /\ mongo.docs c2 = mongo.docs c1.
Proof.
  intros Hid H Hd. unfold services.DeleteMovie at 1.
  destruct (Z.leb_spec id 0) as [?|_]; [lia|].
  change (ports.ExistsByID id c) with (database.ExistsByID id c).
  destruct (ExistsByID_healthy c id H) as (c0 & -> & Hd0 & _ & H0). rewrite Hd.
  change (ports.Delete id c0) with (database.Delete id c0).
  unfold database.Delete, mongo.DeleteOne.
  rewrite (round_trip_hd _ _ (healthy_hd _ H0)), Hd0, Hd. simpl.
  set (c1 := mongo.mkCollection _ _ _ _).
  assert (H1 : healthy c1 = true) by (apply (healthy_after c0); [reflexivity|exact H0]).
  assert (Hgone : mongo.docs c1 !! id = None) by (subst c1; simpl; apply lookup_delete_eq).
  destruct (DeleteMovie_absent c1 id Hid H1 Hgone) as (c2 & Hagain & Hd2 & _).
  exists c1, c2. rewrite Hagain. subst c1. simpl in *. auto.
Qed.

Lemma DeleteMovie_then_again_witness :
  exists c1 c2,
    services.DeleteMovie 1 (c_of one_movie []) = (None, c1)
    /\ mongo.docs c1 = delete 1 (mongo.docs (c_of one_movie []))
    /\ services.DeleteMovie 1 c1 = (Some ErrMovieNotFound, c2)
    /\ mongo.docs c2 = mongo.docs c1.
Proof.
  apply (DeleteMovie_then_again 1 (c_of one_movie []) (mongo.mkDoc "Test Movie" "2023")).
  - lia.
  - reflexivity.
  - vm_compute. reflexivity.
Defined.

(** An acceptable request on a store that answers, with what is needed to
    go on from the store it leaves. *)
Lemma CreateMovie_valid_input_next (currentYear : Z) (title year : string)
    (c : mongo.Collection) :
  valid_input currentYear title year = true ->
  healthy c = true ->
  match max_id (mongo.docs c) with None => True | Some m => 0 <= m < MaxInt32 end ->
  exists c1,
    let id := match max_id (mongo.docs c) with None => 1 | Some m => m + 1 end in
    services.CreateMovie currentYear title year c
    = (Ok (domain.mkMovie id title year), c1)
    /\ 0 < id
    /\ mongo.docs c !! id = None
    /\ (forall k, is_Some (mongo.docs c !! k) -> k < id)
    /\ mongo.docs c1 = <[id := mongo.mkDoc title year]> (mongo.docs c)
    /\ healthy c1 = true.
Proof.
  intros Hvalid H Hmax.
  set (id := match max_id (mongo.docs c) with None => 1 | Some m => m + 1 end).
  assert (Hw : match max_id (mongo.docs c) with None => 1 | Some m => wrap32 (m + 1) end
               = id).
  { subst id. destruct (max_id (mongo.docs c)); [|reflexivity].
    apply wrap32_small. unfold is_int32, MinInt32, MaxInt32 in *. lia. }
  assert (Hid : 0 < id /\ forall k, is_Some (mongo.docs c !! k) -> k < id).
  { subst id. destruct (max_id (mongo.docs c)) as [m|] eqn:Hm.
    - split; [lia|]. apply max_id_Some in Hm as [_ Hub].
      intros k Hk. specialize (Hub k Hk). lia.
    - split; [lia|]. apply max_id_None in Hm. rewrite Hm.
      intros k [d Hk]. rewrite lookup_empty in Hk. discriminate Hk. }
  destruct Hid as [Hpos Hub].
  assert (Hfresh : mongo.docs c !! id = None).
  { destruct (mongo.docs c !! id) eqn:Hl; [|reflexivity].
    specialize (Hub id ltac:(eauto)). lia. }
  unfold services.CreateMovie.
  destruct (GetNextID_healthy c H) as (c1 & Hnext & Hd1 & Hv1 & H1).
  change (ports.GetNextID c) with (database.GetNextID c). rewrite Hnext, Hw.
  assert (HN : domain.NewMovie currentYear id title year
               = Ok (domain.mkMovie id title year)).
  { apply NewMovie_ok_iff. split; [exact Hvalid|reflexivity]. }
  rewrite HN. simpl.
  destruct (ExistsByID_healthy c1 id H1) as (c2 & Hex & Hd2 & Hv2 & H2).
  change (ports.ExistsByID id c1) with (database.ExistsByID id c1).
  rewrite Hex, Hd1, Hfresh.
  destruct (Create_healthy c2 (domain.mkMovie id title year) H2)
    as (c3 & Hcr & Hd3 & _ & H3).
  - eapply NewMovie_Validate. exact HN.
  - intros _. unfold mongo.schema_ok. simpl. unfold valid_input in Hvalid.
    apply andb_true_iff in Hvalid as [Hvalid _].
    apply andb_true_iff in Hvalid as [Hvalid _].
    apply andb_true_iff in Hvalid as [_ H4]. exact H4.
  - simpl. rewrite Hd2, Hd1. exact Hfresh.
  - exists c3.
    change (ports.Create (domain.mkMovie id title year) c2)
      with (database.Create (domain.mkMovie id title year) c2).
    rewrite Hcr. repeat split; auto.
    rewrite Hd3, Hd2, Hd1. reflexivity.
Qed.

(** X18: on a store that answers, a movie just created by the service is
    returned by [GetMovie] under the id it was given, with the title and
    year of the request. *)
Theorem CreateMovie_then_GetMovie (currentYear : Z) (title year : string)
    (c : mongo.Collection) :
  valid_input currentYear title year = true ->
  healthy c = true ->
  match max_id (mongo.docs c) with None => True | Some m => 0 <= m < MaxInt32 end ->
  exists m c1 c2,
    services.CreateMovie currentYear title year c = (Ok m, c1)
    /\ services.GetMovie (domain.ID m) c1 = (Ok m, c2)
    /\ domain.Title m = title /\ domain.Year m = year.
Proof.
  intros Hvalid H Hmax.
  destruct (CreateMovie_valid_input_next currentYear title year c Hvalid H Hmax)
    as (c1 & Hc & Hpos & _ & _ & Hd1 & H1).
  set (id := match max_id (mongo.docs c) with None => 1 | Some m => m + 1 end) in *.
  destruct (GetMovie_absent_or_present_aux id c1) as [c2 Hg]; [exact Hpos|exact H1|].
  exists (domain.mkMovie id title year), c1, c2.
  rewrite Hd1, lookup_insert_eq in Hg. simpl in *.
  destruct Hg as [Hg _]. auto.
Qed.

Lemma CreateMovie_then_GetMovie_witness :
  exists m c1 c2,
    services.CreateMovie 2026 "Movie 2" "2022" (c_of one_movie []) = (Ok m, c1)
    /\ services.GetMovie (domain.ID m) c1 = (Ok m, c2)
    /\ domain.Title m = "Movie 2" /\ domain.Year m = "2022".
Proof.
  apply (CreateMovie_then_GetMovie 2026 "Movie 2" "2022" (c_of one_movie [])).
  - reflexivity.
  - reflexivity.
  - replace (max_id (mongo.docs (c_of one_movie []))) with (Some 1)
      by (vm_compute; reflexivity).
    unfold MaxInt32. lia.
Defined.

Lemma max_id_insert_above (d : gmap Z mongo.Doc) (id : Z) (v : mongo.Doc) :
  (forall k, is_Some (d !! k) -> k < id) -> max_id (<[id := v]> d) = Some id.
Proof.
  intros Hub. destruct (max_id (<[id := v]> d)) as [m|] eqn:Hm.
  - apply max_id_Some in Hm as [[x Hin] Hall]. f_equal.
    assert (id <= m) by (apply Hall; rewrite lookup_insert_eq; eauto).
    destruct (decide (m = id)) as [->|Hne]; [reflexivity|].
    rewrite lookup_insert_ne in Hin by congruence.
    specialize (Hub m ltac:(eauto)). lia.
  - apply max_id_None in Hm. exfalso.
    apply (insert_non_empty (M := gmap Z) d id v Hm).
Qed.

Lemma CreateMovie_each_from (currentYear : Z) (reqs : list (string * string)) :
  forall (c : mongo.Collection) (n : Z),
  healthy c = true ->
  match max_id (mongo.docs c) with
  | None => n = 1
  | Some m => n = m + 1 /\ 0 <= m
  end ->
  Forall (fun r => valid_input currentYear r.1 r.2 = true) reqs ->
  n + Z.of_nat (length reqs) <= MaxInt32 + 1 ->
  exists c1,
    CreateMovie_each currentYear reqs c
    = (imap (fun i r => Ok (domain.mkMovie (n + Z.of_nat i) r.1 r.2)) reqs, c1)
    /\ size (mongo.docs c1) = (size (mongo.docs c) + length reqs)%nat
    /\ healthy c1 = true.
Proof.
  induction reqs as [|[title year] reqs IH]; intros c n H Hinv Hall Hlen.
  - exists c. simpl. rewrite Nat.add_0_r. auto.
  - apply Forall_cons in Hall as [Hvalid Hall]. simpl in Hvalid, Hlen.
    destruct (CreateMovie_valid_input_next currentYear title year c Hvalid H)
      as (c1 & Hc & Hpos & Hfresh & Hub & Hd1 & H1).
    { destruct (max_id (mongo.docs c)); [|exact I]. lia. }
    assert (Hn : match max_id (mongo.docs c) with None => 1 | Some m => m + 1 end = n).
    { destruct (max_id (mongo.docs c)); lia. }
    simpl in Hc, Hpos, Hfresh, Hub, Hd1. rewrite Hn in Hc, Hpos, Hfresh, Hub, Hd1.
    destruct (IH c1 (n + 1) H1) as (c2 & Hrest & Hsize & H2).
    { rewrite Hd1, (max_id_insert_above _ _ _ Hub). lia. }
    { exact Hall. }
    { lia. }
    exists c2. simpl. rewrite Hc, Hrest. split; [|split; [|exact H2]].
    + f_equal. f_equal.
      * rewrite Z.add_0_r. reflexivity.
      * apply imap_ext. intros i [t y] _. simpl. do 2 f_equal. lia.
    + rewrite Hsize, Hd1, (map_size_insert_None _ _ _ Hfresh). lia.
Qed.

(** X19: on an empty store that answers, the service creates a list of
    acceptable requests under the ids 1, 2, 3, ... in the order of the
    requests, each movie with the title and year asked for, and the
    collection then holds as many documents as there were requests. *)
Theorem CreateMovie_each_from_empty (currentYear : Z)
    (reqs : list (string * string)) (c : mongo.Collection) :
  healthy c = true -> mongo.docs c = ∅ ->
  Forall (fun r => valid_input currentYear r.1 r.2 = true) reqs ->
  Z.of_nat (length reqs) <= MaxInt32 ->
  exists c1,
    CreateMovie_each currentYear reqs c
    = (imap (fun i r => Ok (domain.mkMovie (1 + Z.of_nat i) r.1 r.2)) reqs, c1)
    /\ size (mongo.docs c1) = length reqs.
Proof.
  intros H Hempty Hall Hlen.
  destruct (CreateMovie_each_from currentYear reqs c 1 H) as (c1 & Hrun & Hsize & _).
  - apply max_id_None in Hempty. rewrite Hempty. reflexivity.
  - exact Hall.
  - lia.
  - exists c1. split; [exact Hrun|].
    rewrite Hsize, Hempty, map_size_empty. reflexivity.
Qed.

Lemma CreateMovie_each_from_empty_witness :
  exists c1,
    CreateMovie_each 2026 [("One", "2001"); ("Two", "2002"); ("Three", "2003")] (c_of [] [])
    = (imap (fun i r => Ok (domain.mkMovie (1 + Z.of_nat i) r.1 r.2))
            [("One", "2001"); ("Two", "2002"); ("Three", "2003")], c1)
    /\ size (mongo.docs c1) = length [("One", "2001"); ("Two", "2002"); ("Three", "2003")].
Proof.
  apply (CreateMovie_each_from_empty 2026
           [("One", "2001"); ("Two", "2002"); ("Three", "2003")] (c_of [] [])).
  - reflexivity.
  - reflexivity.
  - repeat constructor.
  - unfold MaxInt32. simpl. lia.
Defined.

Lemma normalize_range (filter : domain.MovieFilter) :
  1 <= domain.Page (services.normalize filter)
  /\ 1 <= domain.Limit (services.normalize filter) <= 100.
Proof.
  unfold services.normalize. simpl.
  destruct (Z.ltb_spec (domain.Page filter) 1);
    destruct (Z.ltb_spec (domain.Limit filter) 1);
    destruct (Z.ltb_spec 100 (domain.Limit filter)); simpl; lia.
Qed.

(** X20: whatever [GetMovies] returns, for any filter and any store, is at
    most 100 stored movies -- at most the limit asked for, when that lies
    in [1 .. 100] -- in strictly ascending order of id, and no document has
    changed. *)
Theorem GetMovies_result (filter : domain.MovieFilter) (c : mongo.Collection)
    (movies : list domain.Movie) (total : Z) :
  (services.GetMovies filter c).1 = Ok (movies, total) ->
  Z.of_nat (length movies) <= 100
  /\ (1 <= domain.Limit filter <= 100 ->
      Z.of_nat (length movies) <= domain.Limit filter)
  /\ (forall i j a b, movies !! i = Some a -> movies !! j = Some b ->
        (i < j)%nat -> domain.ID a < domain.ID b)
  /\ (forall m, m ∈ movies -> mongo.docs c !! domain.ID m = Some (mongo.encode m))
  /\ mongo.docs (services.GetMovies filter c).2 = mongo.docs c.
Proof.
  unfold services.GetMovies.
  change (ports.FindAll (services.normalize filter) c)
    with (database.FindAll (services.normalize filter) c).
  destruct (database.FindAll (services.normalize filter) c) as [[ms|e] c1] eqn:HF;
    [|discriminate].
  destruct (FindAll_page _ _ _ _ HF) as (Hlen & Hasc & Hin & Hd1).
  change (ports.Count c1) with (database.Count c1).
  pose proof (Count_docs c1) as Hd2.
  pose proof (normalize_range filter) as (_ & Hlo & Hhi).
  assert (Hms : (ms = movies) ->
    Z.of_nat (length movies) <= 100
    /\ (1 <= domain.Limit filter <= 100 ->
        Z.of_nat (length movies) <= domain.Limit filter)
    /\ (forall i j a b, movies !! i = Some a -> movies !! j = Some b ->
          (i < j)%nat -> domain.ID a < domain.ID b)
    /\ (forall m, m ∈ movies -> mongo.docs c !! domain.ID m = Some (mongo.encode m))).
  { intros <-. specialize (Hlen ltac:(lia)).
    split; [lia|]. split; [|split; assumption].
    intros Hr. unfold services.normalize in Hlen. simpl in Hlen.
    destruct (Z.ltb_spec (domain.Limit filter) 1); [lia|].
    destruct (Z.ltb_spec 100 (domain.Limit filter)); [lia|]. exact Hlen. }
  destruct (database.Count c1) as [[n|e] c2]; simpl in *;
    intros [= Heq _]; destruct (Hms Heq) as (? & ? & ? & ?);
    repeat split; auto; congruence.
Qed.

Lemma GetMovies_result_witness :
  Z.of_nat (length [domain.mkMovie 3 "Three" "2003"; domain.mkMovie 4 "Four" "2004"]) <= 100
  /\ (1 <= domain.Limit (domain.mkFilter 2 2) <= 100 ->
      Z.of_nat (length [domain.mkMovie 3 "Three" "2003"; domain.mkMovie 4 "Four" "2004"])
      <= domain.Limit (domain.mkFilter 2 2))
  /\ (forall i j a b,
        [domain.mkMovie 3 "Three" "2003"; domain.mkMovie 4 "Four" "2004"] !! i = Some a ->
        [domain.mkMovie 3 "Three" "2003"; domain.mkMovie 4 "Four" "2004"] !! j = Some b ->
        (i < j)%nat -> domain.ID a < domain.ID b)
  /\ (forall m, m ∈ [domain.mkMovie 3 "Three" "2003"; domain.mkMovie 4 "Four" "2004"] ->
        mongo.docs five_movies !! domain.ID m = Some (mongo.encode m))
  /\ mongo.docs (services.GetMovies (domain.mkFilter 2 2) five_movies).2
     = mongo.docs five_movies.
Proof.
  apply (GetMovies_result (domain.mkFilter 2 2) five_movies
           [domain.mkMovie 3 "Three" "2003"; domain.mkMovie 4 "Four" "2004"] 5).
  vm_compute. reflexivity.
Defined.

(** ** The server of the movies service *)

Lemma append_String ch s t : String.append (String ch s) t = String ch (String.append s t).
Proof. reflexivity. Qed.

Lemma append_empty_l t : String.append "" t = t.
Proof. reflexivity. Qed.

Lemma append_empty_r s : String.append s "" = s.
Proof.
  induction s as [|ch s IH]; [reflexivity|]. rewrite append_String, IH. reflexivity.
Qed.

Lemma append_assoc s1 s2 s3 :
  String.append (String.append s1 s2) s3 = String.append s1 (String.append s2 s3).
Proof.
  induction s1 as [|ch s1 IH]; [reflexivity|]. rewrite !append_String, IH. reflexivity.
Qed.

(** X21: the server refuses an id of zero or less, and a create request
    whose title or year is empty, with its own message and without a call
    to the service: the repository state is the one it was given. *)
Theorem server_refuses_before_service
    (S : Type) (repo : ports.MovieRepository S) (driver_message : string)
    (currentYear id : Z) (title year : string) (s : S) :
  (id <= 0 ->
     grpc_server.GetMovie driver_message id s
     = (pb.mkMovieResponse None false "invalid movie ID", s)
     /\ grpc_server.DeleteMovie driver_message id s
        = (pb.mkDeleteMovieResponse false "invalid movie ID", s))
  /\ (title = "" \/ year = "" ->
      grpc_server.CreateMovie driver_message currentYear title year s
      = (pb.mkMovieResponse None false "title and year are required", s)).
Proof.
  unfold grpc_server.GetMovie, grpc_server.DeleteMovie, grpc_server.CreateMovie.
  split.
  - intros Hid. destruct (Z.leb_spec id 0); [|lia]. split; reflexivity.
  - intros [-> | ->]; simpl; [reflexivity|].
    rewrite orb_true_r. reflexivity.
Qed.

(** X22: over any repository, the server's [GetMovie] never answers with
    the text [movie not found]: the service wraps what the repository
    reports, so the text starts with the wrapping. *)
Theorem server_GetMovie_never_plain_not_found
    (S : Type) (repo : ports.MovieRepository S) (driver_message : string)
    (id : Z) (s : S) :
  pb.Error (grpc_server.GetMovie driver_message id s).1 <> "movie not found".
Proof.
  unfold grpc_server.GetMovie, services.GetMovie.
  destruct (id <=? 0); [discriminate|].
  destruct (ports.FindByID id s) as [[m|e] s1]; simpl; discriminate.
Qed.

(** X23: on a store that answers, for an id above zero that no document
    has, the server's [GetMovie] answers with the wrapped text that names
    the id, and its [DeleteMovie] with the plain [movie not found]. *)
Theorem server_missing_movie_texts (driver_message : string) (id : Z)
    (c : mongo.Collection) :
  0 < id -> healthy c = true -> mongo.docs c !! id = None ->
  (grpc_server.GetMovie driver_message id c).1
  = pb.mkMovieResponse None false
      (String.append "failed to get movie with id "
                     (String.append (itoa id) ": movie not found"))
  /\ (grpc_server.DeleteMovie driver_message id c).1
     = pb.mkDeleteMovieResponse false "movie not found".
Proof.
  intros Hid H Habs. unfold grpc_server.GetMovie, grpc_server.DeleteMovie.
  destruct (Z.leb_spec id 0) as [?|_]; [lia|].
  destruct (GetMovie_absent_or_present_aux id c Hid H) as (c1 & -> & _).
  destruct (DeleteMovie_absent c id Hid H Habs) as (c2 & -> & _).
  rewrite Habs. split; [|reflexivity].
  simpl. unfold itoa.
  repeat (rewrite append_String || rewrite append_empty_l
          || rewrite append_empty_r || rewrite append_assoc).
  reflexivity.
Qed.

Lemma server_missing_movie_texts_witness :
  (grpc_server.GetMovie "connection refused" 999 (c_of one_movie [])).1
  = pb.mkMovieResponse None false
      (String.append "failed to get movie with id "
                     (String.append (itoa 999) ": movie not found"))
  /\ (grpc_server.DeleteMovie "connection refused" 999 (c_of one_movie [])).1
     = pb.mkDeleteMovieResponse false "movie not found".
Proof.
  apply (server_missing_movie_texts "connection refused" 999 (c_of one_movie [])).
  - lia.
  - reflexivity.
  - vm_compute. reflexivity.
Defined.

(** ** The gateway in front of the movies service *)

(** X24: over any port, the gateway's service refuses an id of zero or
    less, and a create request whose title or year is empty, without a
    call through the port: the state behind it is the one it was given. *)
Theorem gateway_refuses_before_port
    (T : Type) (moviePort : gateway.MovieServicePort T)
    (id : Z) (title year : string) (t : T) :
  (id <= 0 ->
     gateway.GetMovie id t = (gateway.Failed (gateway.invalid_movie_ID id), t)
     /\ gateway.DeleteMovie id t = (Some (gateway.invalid_movie_ID id), t))
  /\ (title = "" \/ year = "" ->
      gateway.CreateMovie title year t
      = (gateway.Failed gateway.title_and_year_required, t)).
Proof.
  unfold gateway.GetMovie, gateway.DeleteMovie, gateway.CreateMovie. split.
  - intros Hid. destruct (Z.leb_spec id 0); [|lia]. split; reflexivity.
  - intros [-> | ->]; simpl; [reflexivity|].
    rewrite orb_true_r. reflexivity.
Qed.

Section Relay.

Context {S : Type} {repo : ports.MovieRepository S}.
Variables (currentYear : Z) (driver_message : string).

#[local] Instance the_stub : grpc_client.MovieServiceClient S :=
  connected currentYear driver_message.

Lemma normalize_coerced (page limit : Z) :
  services.normalize
    (domain.mkFilter (if page <? 1 then 1 else page)
                     (if (limit <? 1) || (100 <? limit) then 10 else limit))
  = services.normalize (domain.mkFilter page limit).
Proof.
  unfold services.normalize. simpl.
  repeat match goal with
         | |- context [?a <? ?b] => destruct (Z.ltb_spec a b); simpl in *; try lia
         end; reflexivity.
Qed.

Lemma GetMovies_normalize (filter : domain.MovieFilter) (s : S) :
  services.GetMovies filter s = services.GetMovies (services.normalize filter) s.
Proof.
  unfold services.GetMovies.
  assert (services.normalize (services.normalize filter) = services.normalize filter)
    as ->; [|reflexivity].
  destruct filter as [p l]. unfold services.normalize. simpl.
  repeat match goal with
         | |- context [?a <? ?b] => destruct (Z.ltb_spec a b); simpl in *; try lia
         end; reflexivity.
Qed.

Lemma relay_GetMovies (page limit : Z) (s : S) :
  gateway.GetMovies page limit s
  = match services.GetMovies (domain.mkFilter page limit) s with
    | (Ok (movies, total), s1) => (gateway.Done (as_gateway <$> movies, total), s1)
    | (Err e, s1) =>
        (gateway.Failed
           (gateway.wrapping "failed to get movies"
              (gateway.movie_service_error (errors.Error driver_message e))), s1)
    end.
Proof.
  unfold gateway.GetMovies. simpl.
  unfold grpc_client.GetMovies. simpl. unfold grpc_server.GetMovies. simpl.
  rewrite (GetMovies_normalize (domain.mkFilter page limit)).
  rewrite (GetMovies_normalize (domain.mkFilter _ _)), normalize_coerced.
  destruct (services.GetMovies _ s) as [[[movies total]|e] s1]; simpl; [|reflexivity].
  rewrite <- list_fmap_compose. reflexivity.
Qed.

Lemma relay_GetMovie (id : Z) (s : S) :
  gateway.GetMovie id s
  = if id <=? 0 then (gateway.Failed (gateway.invalid_movie_ID id), s)
    else match services.GetMovie id s with
         | (Ok m, s1) => (gateway.Done (as_gateway m), s1)
         | (Err e, s1) =>
             (gateway.Failed
                (gateway.wrapping "failed to get movie"
                   (gateway.movie_service_error (errors.Error driver_message e))), s1)
         end.
Proof.
  unfold gateway.GetMovie. destruct (id <=? 0) eqn:Hid; [reflexivity|]. simpl.
  unfold grpc_client.GetMovie. simpl. unfold grpc_server.GetMovie. rewrite Hid.
  destruct (services.GetMovie id s) as [[m|e] s1]; simpl; [reflexivity|].
  destruct e; reflexivity.
Qed.

Lemma relay_CreateMovie (title year : string) (s : S) :
  gateway.CreateMovie title year s
  = if String.eqb title "" || String.eqb year ""
    then (gateway.Failed gateway.title_and_year_required, s)
    else match services.CreateMovie currentYear title year s with
         | (Ok m, s1) => (gateway.Done (as_gateway m), s1)
         | (Err e, s1) =>
             (gateway.Failed
                (gateway.wrapping "failed to create movie"
                   (gateway.movie_service_error (errors.Error driver_message e))), s1)
         end.
Proof.
  unfold gateway.CreateMovie.
  destruct (String.eqb title "" || String.eqb year "") eqn:Hreq; [reflexivity|]. simpl.
  unfold grpc_client.CreateMovie. simpl. unfold grpc_server.CreateMovie. rewrite Hreq.
  destruct (services.CreateMovie currentYear title year s) as [[m|e] s1]; reflexivity.
Qed.

Lemma relay_DeleteMovie (id : Z) (s : S) :
  gateway.DeleteMovie id s
  = if id <=? 0 then (Some (gateway.invalid_movie_ID id), s)
    else match services.DeleteMovie id s with
         | (None, s1) => (None, s1)
         | (Some e, s1) =>
             (Some (gateway.wrapping "failed to delete movie"
                      (gateway.movie_service_error (errors.Error driver_message e))), s1)
         end.
Proof.
  unfold gateway.DeleteMovie. destruct (id <=? 0) eqn:Hid; [reflexivity|]. simpl.
  unfold grpc_client.DeleteMovie. simpl. unfold grpc_server.DeleteMovie. rewrite Hid.
  destruct (services.DeleteMovie id s) as [[e|] s1]; simpl; [|reflexivity].
  destruct e; reflexivity.
Qed.

End Relay.

(** X25: through a stub that reaches the server, the gateway's listing is
    the listing of the movies service for the page and limit as given: the
    coercion done twice changes nothing, the movies come back field by
    field with the total, and an error comes back as its text. *)
Theorem gateway_relays_listing
    (S : Type) (repo : ports.MovieRepository S)
    (currentYear : Z) (driver_message : string) (page limit : Z) (s : S) :
  gateway.GetMovies
    (moviePort := grpc_client.MovieGRPCClient
                    (client := connected currentYear driver_message))
    page limit s
  = match services.GetMovies (domain.mkFilter page limit) s with
    | (Ok (movies, total), s1) => (gateway.Done (as_gateway <$> movies, total), s1)
    | (Err e, s1) =>
        (gateway.Failed
           (gateway.wrapping "failed to get movies"
              (gateway.movie_service_error (errors.Error driver_message e))), s1)
    end.
Proof. apply relay_GetMovies. Qed.

(** X26: through a stub that reaches the server, the gateway's get, create
    and delete refuse what the gateway refuses and otherwise return what
    the movies service returns: the movie field by field, or the text of
    the service's error inside the gateway's wrapping. *)
Theorem gateway_relays_by_id
    (S : Type) (repo : ports.MovieRepository S)
    (currentYear : Z) (driver_message : string)
    (id : Z) (title year : string) (s : S) :
  gateway.GetMovie
    (moviePort := grpc_client.MovieGRPCClient
                    (client := connected currentYear driver_message)) id s
  = (if id <=? 0 then (gateway.Failed (gateway.invalid_movie_ID id), s)
     else match services.GetMovie id s with
          | (Ok m, s1) => (gateway.Done (as_gateway m), s1)
          | (Err e, s1) =>
              (gateway.Failed
                 (gateway.wrapping "failed to get movie"
                    (gateway.movie_service_error (errors.Error driver_message e))), s1)
          end)
  /\ gateway.CreateMovie
       (moviePort := grpc_client.MovieGRPCClient
                       (client := connected currentYear driver_message)) title year s
     = (if String.eqb title "" || String.eqb year ""
        then (gateway.Failed gateway.title_and_year_required, s)
        else match services.CreateMovie currentYear title year s with
             | (Ok m, s1) => (gateway.Done (as_gateway m), s1)
             | (Err e, s1) =>
                 (gateway.Failed
                    (gateway.wrapping "failed to create movie"
                       (gateway.movie_service_error (errors.Error driver_message e))), s1)
             end)
  /\ gateway.DeleteMovie
       (moviePort := grpc_client.MovieGRPCClient
                       (client := connected currentYear driver_message)) id s
     = (if id <=? 0 then (Some (gateway.invalid_movie_ID id), s)
        else match services.DeleteMovie id s with
             | (None, s1) => (None, s1)
             | (Some e, s1) =>
                 (Some (gateway.wrapping "failed to delete movie"
                          (gateway.movie_service_error (errors.Error driver_message e))), s1)
             end).
Proof.
  split; [apply relay_GetMovie|split; [apply relay_CreateMovie|apply relay_DeleteMovie]].
Qed.

(** X27: the client reads the fields of the movie of every response that
    is a success; over the server this never panics, since the server sets
    the movie in each success it returns. *)
Theorem connected_client_never_panics
    (S : Type) (repo : ports.MovieRepository S)
    (currentYear : Z) (driver_message : string)
    (id : Z) (title year : string) (s : S) :
  (grpc_client.GetMovie (client := connected currentYear driver_message) id s).1
  <> gateway.Panicked
  /\ (grpc_client.CreateMovie (client := connected currentYear driver_message)
        title year s).1
     <> gateway.Panicked.
Proof.
  unfold grpc_client.GetMovie, grpc_client.CreateMovie. simpl.
  unfold grpc_server.GetMovie, grpc_server.CreateMovie. split.
  - destruct (id <=? 0); [discriminate|].
    destruct (services.GetMovie id s) as [[m|e] s1]; simpl; [discriminate|].
    destruct e; discriminate.
  - destruct (String.eqb title "" || String.eqb year ""); [discriminate|].
    destruct (services.CreateMovie currentYear title year s) as [[m|e] s1];
      discriminate.
Qed.

(** ** Configuration *)

(** X28: loaded from the environment, the configuration of the movies
    service passes its validation exactly when none of [MONGODB_URI],
    [DATABASE_NAME] and [GRPC_PORT] is set to the empty text -- a variable
    that is not set takes its default -- and a timeout that is not set, or
    set to a text [Atoi] refuses, is 10. *)
Theorem config_Load_Validate (env : gmap string string) :
  (config.Validate (config.Load env) = None <->
   env !! "MONGODB_URI" <> Some "" /\ env !! "DATABASE_NAME" <> Some ""
   /\ env !! "GRPC_PORT" <> Some "")
  /\ config.ReadTimeout (config.Server (config.Load env))
     = match env !! "READ_TIMEOUT" with
       | Some value => default 10 (strconv.Atoi value)
       | None => 10
       end.
Proof.
  unfold config.Load, config.Validate, config.getEnvAsInt, config.getEnv. simpl.
  split.
  - destruct (env !! "MONGODB_URI") as [uri|];
      [destruct (String.eqb_spec uri "") as [->|]|];
      (destruct (env !! "DATABASE_NAME") as [name|];
       [destruct (String.eqb_spec name "") as [->|]|]);
      (destruct (env !! "GRPC_PORT") as [port|];
       [destruct (String.eqb_spec port "") as [->|]|]); simpl;
      split; try discriminate; try tauto;
      try (intros _; repeat split; congruence).
  - destruct (env !! "READ_TIMEOUT") as [value|]; [|reflexivity].
    destruct (strconv.Atoi value); reflexivity.
Qed.

(** X29: loaded from the environment, the configuration of the gateway
    passes its validation exactly when [MOVIE_SERVICE_GRPC_ADDRESS] is not
    set to the empty text; when the variable is not set the address is the
    default. *)
Theorem gateway_config_Load_Validate (env : gmap string string) :
  (gateway_config.Validate (gateway_config.Load env) = None <->
   env !! "MOVIE_SERVICE_GRPC_ADDRESS" <> Some "")
  /\ (env !! "MOVIE_SERVICE_GRPC_ADDRESS" = None ->
      gateway_config.GRPCAddress (gateway_config.MovieService (gateway_config.Load env))
      = "movies-service:50051").
Proof.
  unfold gateway_config.Load, gateway_config.Validate, gateway_config.getEnv. simpl.
  split.
  - destruct (env !! "MOVIE_SERVICE_GRPC_ADDRESS") as [addr|];
      [destruct (String.eqb_spec addr "") as [->|]|]; simpl;
      split; try discriminate; try tauto; congruence.
  - intros ->. reflexivity.
Qed.
